(** * stop: a terminal dashboard for Slurm -- the aggregation pipeline

    Shallow embedding of [src/stop/slurm.py], of the methods of
    [src/stop/tui.py] that consume its results (the look-ups of the home
    view, the list views and their search, the configuration screen) and of
    the home view of [main.py], with the properties the specification
    states about them and further properties read off the code.

    Conventions of the embedding.
    - A Python call either returns or raises: [result A].  A function that
      may [return None] returns an [option] inside [Return].
    - Python [int] is [Z]; a Python [float] is modelled by the exact
      rational it denotes ([Q]).  polars stores the columns read here as
      Int64/Float64; on epoch seconds, node, cpu and job counts the two
      agree (every quantity stays far below 2^53), and the model does not
      describe payloads beyond that magnitude.
    - A decoded JSON document is [None] or an object ([gmap string _]) whose
      entries are lists of records; records are typed, with every field the
      code reads present.
    - polars leaves the row order of [group_by] unspecified, and so the order
      of ties after [sort] and of the pivoted state columns.  The model fixes
      these to first appearance; the theorems below are stated on contents,
      sortedness and permutations only where that order matters. *)

From Stdlib Require Import ZArith QArith List String Ascii Lia DecimalString.
From Stdlib Require Import Permutation Sorted.
From stdpp Require Import base gmap strings list sorting.

Open Scope string_scope.
Open Scope list_scope.
Open Scope Z_scope.

(* ===================================================================== *)
(** ** Python values, exceptions, results *)
(* ===================================================================== *)

Module Py.

(** The exceptions that occur in the modelled code.  [CancelledError]
    derives from [BaseException] only; all others derive from
    [Exception]. *)
Inductive exn : Type :=
| KeyError (key : string)
| IndexError
| FileNotFoundError
| JSONDecodeError
| UnicodeDecodeError
| ColumnNotFoundError (name : string)
| OtherException (name : string)
| CancelledError.

Definition is_Exception (e : exn) : bool :=
  match e with
  | CancelledError => false
  | _ => true
  end.

Inductive result (A : Type) : Type :=
| Return (a : A)
| Raise (e : exn).
Arguments Return {A} a.
Arguments Raise {A} e.

Definition bind {A B} (m : result A) (k : A -> result B) : result B :=
  match m with
  | Return a => k a
  | Raise e => Raise e
  end.

Definition returns {A} (m : result A) : Prop :=
  match m with
  | Return _ => True
  | Raise _ => False
  end.

(** A number as Python sees it. *)
Inductive number : Type :=
| PyInt (z : Z)
| PyFloat (q : Q).

(** [int(x)]: the identity on [int], truncation toward zero on [float]. *)
Definition int (x : number) : Z :=
  match x with
  | PyInt z => z
  | PyFloat q => Z.quot (Qnum q) (Z.pos (Qden q))
  end.

(** [float(x)]. *)
Definition float (x : number) : Q :=
  match x with
  | PyInt z => inject_Z z
  | PyFloat q => q
  end.

(** [str(n)] for an [int], as an f-string renders [{n}]. *)
Definition str (z : Z) : string := NilZero.string_of_int (Z.to_int z).

(** [d[k]] on a dict. *)
Definition getitem {V} (d : gmap string V) (k : string) : result V :=
  match d !! k with
  | Some v => Return v
  | None => Raise (KeyError k)
  end.

(** [k in d] on a dict. *)
Definition contains {V} (k : string) (d : gmap string V) : bool :=
  match d !! k with
  | Some _ => true
  | None => false
  end.

(** Truth value of a dict and of a list. *)
Definition dict_truthy {V} (d : gmap string V) : bool :=
  negb (bool_decide (d = ∅)).

Definition list_truthy {A} (l : list A) : bool :=
  match l with
  | [] => false
  | _ :: _ => true
  end.

End Py.

Import Py.

(** [x ← m; k] sequences two calls: an exception raised by [m] propagates. *)
#[global] Instance result_ret : MRet result := @Return.
#[global] Instance result_bind : MBind result := fun A B k m => bind m k.
#[global] Instance result_fmap : FMap result :=
  fun A B f m => bind m (fun a => Return (f a)).

(* ===================================================================== *)
(** ** Time formatting *)
(* ===================================================================== *)

(** [format_seconds_to_human_readable], slurm.py lines 251-262. *)
Definition format_seconds_to_human_readable (seconds : option number) : string :=
  match seconds with
  | None => "N/A"
  | Some x =>
      let seconds := int x in
      let days := seconds / (24 * 3600) in
      let seconds := seconds mod (24 * 3600) in
      let hours := seconds / 3600 in
      let seconds := seconds mod 3600 in
      let minutes := seconds / 60 in
      let seconds := seconds mod 60 in
      str days +:+ "d " +:+ str hours +:+ "h " +:+ str minutes +:+ "m "
        +:+ str seconds +:+ "s"
  end.

(** The rendering of a (days, hours, minutes, seconds) quadruple. *)
Definition dhms (d h m s : Z) : string :=
  str d +:+ "d " +:+ str h +:+ "h " +:+ str m +:+ "m " +:+ str s +:+ "s".

(* ===================================================================== *)
(** ** The polars operations the code uses *)
(* ===================================================================== *)

Module Pl.

(** Column types ([Utf8] is [pl.String]). *)
Inductive dtype : Type := Utf8 | UInt32 | Int64 | Float64.

Inductive value : Type :=
| Null
| Str (s : string)
| Int (z : Z)
| Float (q : Q).

(** A frame handed to the display: named, typed columns and rows. *)
Record DataFrame : Type := {
  schema : list (string * dtype);
  rows : list (list value)
}.

Definition columns (df : DataFrame) : list string := (schema df).*1.

Definition column_index (name : string) (cols : list string) : option nat :=
  fst <$> list_find (λ c, c = name) cols.

Definition cell (i : nat) (row : list value) : value := nth i row Null.

(** ** Frames built from records

    [pl.DataFrame(records)] on a list of dicts has the records' keys as
    columns; on the empty list it has no column at all, and any later
    reference [pl.col(name)] raises [ColumnNotFoundError].  (When several
    columns of one expression are missing the model names the first.) *)
Definition col {R} (name : string) (df : list R) : result unit :=
  match df with
  | [] => Raise (ColumnNotFoundError name)
  | _ :: _ => Return ()
  end.

(** ** Aggregations over an integer column *)
Definition sum (l : list Z) : Z := foldr Z.add 0 l.

Definition max (l : list Z) : option Z :=
  match l with
  | [] => None
  | x :: t => Some (foldr Z.max x t)
  end.

Definition mean (l : list Z) : option Q :=
  match l with
  | [] => None
  | _ :: _ => Some (sum l # Pos.of_nat (length l))
  end.

(** The middle element of a sorted column, or the half-sum of its two
    middle elements. *)
Definition middle (s : list Z) : Q :=
  let n := length s in
  if Nat.even n
  then (nth (n / 2 - 1) s 0 + nth (n / 2) s 0) # 2
  else inject_Z (nth (n / 2) s 0).

Definition median (l : list Z) : option Q :=
  match merge_sort Z.le l with
  | [] => None
  | s => Some (middle s)
  end.

(** ** group_by

    Rows are dealt one by one into the group of their key; a key seen for
    the first time opens a new group at the end. *)
Section GroupBy.
Context {A K : Type} `{EqDecision K}.

Fixpoint add_to_group (k : K) (x : A) (groups : list (K * list A))
  : list (K * list A) :=
  match groups with
  | [] => [(k, [x])]
  | (k', g) :: rest =>
      if decide (k = k') then (k', g ++ [x]) :: rest
      else (k', g) :: add_to_group k x rest
  end.

Definition group_by (key : A → K) (df : list A) : list (K * list A) :=
  foldl (λ groups x, add_to_group (key x) x groups) [] df.

(** The rows of the group of [k] ([[]] when there is none). *)
Fixpoint group_of (k : K) (groups : list (K * list A)) : list A :=
  match groups with
  | [] => []
  | (k', g) :: rest => if decide (k = k') then g else group_of k rest
  end.
End GroupBy.

(** The distinct values of a column, in order of first appearance. *)
Fixpoint unique {K} `{EqDecision K} (l : list K) : list K :=
  match l with
  | [] => []
  | x :: t => x :: filter (λ y, y ≠ x) (unique t)
  end.

(** ** sort

    The order of two cells of one column; nulls first. *)
Definition value_leb (a b : value) : bool :=
  match a, b with
  | Null, _ => true
  | _, Null => false
  | Int x, Int y => x <=? y
  | Str x, Str y => String.leb x y
  | Float x, Float y => Qle_bool x y
  | _, _ => true
  end.

Definition row_le (i : nat) (descending : bool) (r1 r2 : list value) : Prop :=
  if descending then Is_true (value_leb (cell i r2) (cell i r1))
  else Is_true (value_leb (cell i r1) (cell i r2)).

#[global] Instance row_le_dec i descending : RelDecision (row_le i descending).
Proof. intros r1 r2. unfold row_le. destruct descending; apply _. Defined.

(** [df.sort(by, descending=...)]. *)
Definition sort (by_ : string) (descending : bool) (df : DataFrame)
  : result DataFrame :=
  match column_index by_ (columns df) with
  | None => Raise (ColumnNotFoundError by_)
  | Some i =>
      Return {| schema := schema df;
                rows := merge_sort (row_le i descending) (rows df) |}
  end.

End Pl.

Import Pl.

(* ===================================================================== *)
(** ** The records of the three scheduler documents *)
(* ===================================================================== *)

(** [sinfo --json]: one record per partition and node-state combination. *)
Module Sinfo.
Record partition_info : Type := { name : string }.
Record counts : Type := { total : Z; idle : Z; allocated : Z }.
Record record : Type := {
  partition : partition_info;
  nodes : counts;
  cpus : counts
}.
End Sinfo.

(** [squeue --json]: one record per job. *)
Module Squeue.
Record time : Type := { number : Z }.
Record job : Type := {
  account : string;
  job_state : list string;
  user_name : string;
  eligible_time : time;
  start_time : time
}.
End Squeue.

(** [scontrol show nodes --json]: one record per node. *)
Module Scontrol.
Record node : Type := {
  name : string;
  state : list string;
  cpus : Z;
  alloc_cpus : Z;
  real_memory : Z;
  alloc_memory : Z;
  partitions : list string;
  cpu_load : Z
}.
End Scontrol.

(* ===================================================================== *)
(** ** Partition rollup *)
(* ===================================================================== *)

(** The six sums of [process_partition_summary] and
    [process_partition_list], over the rows of one group. *)
Definition partition_aggs (g : list Sinfo.record) : list value :=
  [ Int (Pl.sum ((λ r, Sinfo.total (Sinfo.nodes r)) <$> g));
    Int (Pl.sum ((λ r, Sinfo.idle (Sinfo.nodes r)) <$> g));
    Int (Pl.sum ((λ r, Sinfo.allocated (Sinfo.nodes r)) <$> g));
    Int (Pl.sum ((λ r, Sinfo.total (Sinfo.cpus r)) <$> g));
    Int (Pl.sum ((λ r, Sinfo.idle (Sinfo.cpus r)) <$> g));
    Int (Pl.sum ((λ r, Sinfo.allocated (Sinfo.cpus r)) <$> g)) ].

Definition partition_aggs_schema : list (string * dtype) :=
  [ ("Total Nodes", Int64); ("Idle Nodes", Int64); ("Allocated Nodes", Int64);
    ("Total CPUs", Int64); ("Free CPUs", Int64); ("Allocated CPUs", Int64) ].

(** [df.group_by(partition.name as key_col).agg(aggs)]. *)
Definition partition_group_by (key_col : string) (df : list Sinfo.record)
  : result DataFrame :=
  _ ← Pl.col "partition" df;
  mret {| schema := (key_col, Utf8) :: partition_aggs_schema;
          rows := (λ kg, Str kg.1 :: partition_aggs kg.2)
                    <$> group_by (λ r, Sinfo.name (Sinfo.partition r)) df |}.

(** [process_partition_summary], slurm.py lines 66-83. *)
Definition process_partition_summary
    (sinfo_data : option (gmap string (list Sinfo.record)))
  : result (option DataFrame) :=
  match sinfo_data with
  | None => mret None
  | Some d =>
      if negb (dict_truthy d) then mret None
      else
        sinfo_df ← getitem d "sinfo";
        partition_summary_df ← partition_group_by "Partition" sinfo_df;
        Some <$> Pl.sort "Total Nodes" true partition_summary_df
  end.

(** [process_partition_list], slurm.py lines 221-249.  The records of the
    model have no top-level [availability] or [state] key, so neither of the
    two optional aggregations is appended. *)
Definition process_partition_list
    (sinfo_data : option (gmap string (list Sinfo.record)))
  : result (option DataFrame) :=
  match sinfo_data with
  | None => mret None
  | Some d =>
      if negb (dict_truthy d) || negb (contains "sinfo" d) then mret None
      else
        partitions_df ← getitem d "sinfo";
        partition_list_df ← partition_group_by "Partition Name" partitions_df;
        Some <$> Pl.sort "Partition Name" false partition_list_df
  end.

(* ===================================================================== *)
(** ** Job summaries by account and by user *)
(* ===================================================================== *)

(** [squeue_df.explode("job_state")]: one row per state of each job; a job
    whose state list is empty keeps one row, with a null state. *)
Definition explode_job_state (df : list Squeue.job)
  : list (Squeue.job * option string) :=
  df ≫= (λ j, match Squeue.job_state j with
              | [] => [(j, None)]
              | ss => (λ s, (j, Some s)) <$> ss
              end).

(** [df.group_by(key).agg(pl.len())]. *)
Definition group_len {A K} `{EqDecision K} (key : A → K) (df : list A)
  : list (K * nat) :=
  (λ kg, (kg.1, length kg.2)) <$> group_by key df.

(** The value of the first row of [counts] with key [k], if any. *)
Definition first_value {K} `{EqDecision K} (k : K) (counts : list (K * nat))
  : option nat :=
  (λ r, r.2.2) <$> list_find (λ c, c.1 = k) counts.

(** The header of a pivoted state column (a null state is headed "null"). *)
Definition state_column (s : option string) : string := default "null" s.

(** One of the two summaries of [process_job_summaries] (slurm.py lines
    111-127 with [key_col = "account"], lines 130-146 with
    [key_col = "user_name"]): the per-(key, state) counts pivoted into one
    column per state with nulls filled by 0, the per-key row count joined
    as "Total Jobs" and moved to second place, sorted by it. *)
Definition job_summary (key_col : string) (key : Squeue.job → string)
    (squeue_exploded_df : list (Squeue.job * option string))
  : result DataFrame :=
  let counts := group_len (λ r, (key r.1, r.2)) squeue_exploded_df in
  let index := unique ((λ c, c.1.1) <$> counts) in
  let on := unique ((λ c, c.1.2) <$> counts) in
  let pivoted :=
    (λ k, (k, (λ s, default 0%nat (first_value (k, s) counts)) <$> on))
      <$> index in
  let total_jobs := group_len (λ r, key r.1) squeue_exploded_df in
  let joined :=
    (λ kr, Str kr.1
           :: from_option (λ n, Int (Z.of_nat n)) Null
                (first_value kr.1 total_jobs)
           :: ((λ n, Int (Z.of_nat n)) <$> kr.2))
      <$> pivoted in
  Pl.sort "Total Jobs" true
    {| schema := (key_col, Utf8) :: ("Total Jobs", UInt32)
                 :: ((λ s, (state_column s, UInt32)) <$> on);
       rows := joined |}.

(** The frame returned when there is no job to summarise. *)
Definition empty_job_summary (key_col : string) : DataFrame :=
  {| schema := [ (key_col, Utf8); ("Total Jobs", UInt32);
                 ("RUNNING", UInt32); ("PENDING", UInt32);
                 ("COMPLETED", UInt32) ];
     rows := [] |}.

(** [process_job_summaries], slurm.py lines 85-148. *)
Definition process_job_summaries
    (squeue_data : option (gmap string (list Squeue.job)))
  : result (DataFrame * DataFrame) :=
  let empty := mret (empty_job_summary "account",
                     empty_job_summary "user_name") in
  match squeue_data with
  | None => empty
  | Some d =>
      if negb (dict_truthy d) || negb (contains "jobs" d) then empty
      else
        jobs ← getitem d "jobs";
        if negb (list_truthy jobs) then empty
        else
          let squeue_exploded_df := explode_job_state jobs in
          account_summary_df ←
            job_summary "account" Squeue.account squeue_exploded_df;
          user_summary_df ←
            job_summary "user_name" Squeue.user_name squeue_exploded_df;
          mret (account_summary_df, user_summary_df)
  end.

(* ===================================================================== *)
(** ** Node summary and node list *)
(* ===================================================================== *)

Definition broken_states : list string :=
  [ "DRAINED"; "DRAINING"; "DRAIN"; "DOWN"; "FAIL"; "NO_RESPOND";
    "POWER_DOWN"; "POWER_UP"; "RESUME"; "UNKNOWN" ].

(** [pl.col("state").list.contains(s)], evaluated on one node. *)
Definition state_contains (s : string) (n : Scontrol.node) : bool :=
  bool_decide (s ∈ Scontrol.state n).

(** The loop of slurm.py lines 166-171: the disjunction is built one
    state at a time, starting from [None]. *)
Definition broken_nodes_condition : option (Scontrol.node → bool) :=
  foldl (λ cond s,
           match cond with
           | None => Some (state_contains s)
           | Some c => Some (λ n, c n || state_contains s n)
           end)
        None broken_states.

(** [nodes_df.select(pl.col(name)).sum().item()]. *)
Definition select_sum {R} (name : string) (f : R → Z) (df : list R)
  : result Z :=
  _ ← Pl.col name df; mret (Pl.sum (f <$> df)).

(** [nodes_df.filter(cond).shape[0]], for a condition over the columns
    [names]. *)
Definition filter_count {R} (names : list string) (cond : R → bool)
    (df : list R) : result Z :=
  _ ← mapM (λ c, Pl.col c df) names;
  mret (Z.of_nat (length (List.filter cond df))).

(** [process_node_summary], slurm.py lines 150-197. *)
Definition process_node_summary
    (scontrol_data : option (gmap string (list Scontrol.node)))
  : result (option DataFrame) :=
  match scontrol_data with
  | None => mret None
  | Some d =>
      if negb (dict_truthy d) || negb (contains "nodes" d) then mret None
      else
        nodes_df ← getitem d "nodes";
        let total_nodes := Z.of_nat (length nodes_df) in
        total_cpus ← select_sum "cpus" Scontrol.cpus nodes_df;
        total_memory ← select_sum "real_memory" Scontrol.real_memory nodes_df;
        allocated_cpus ← select_sum "alloc_cpus" Scontrol.alloc_cpus nodes_df;
        allocated_memory ←
          select_sum "alloc_memory" Scontrol.alloc_memory nodes_df;
        cond ← from_option mret (Raise (OtherException "TypeError"))
                 broken_nodes_condition;
        broken_nodes ← filter_count ["state"] cond nodes_df;
        reservation_nodes ←
          filter_count ["state"] (state_contains "RESERVATION") nodes_df;
        mixed_nodes ←
          filter_count ["alloc_cpus"; "cpus"]
            (λ n, (0 <? Scontrol.alloc_cpus n)
                  && (Scontrol.alloc_cpus n <? Scontrol.cpus n))
            nodes_df;
        mret (Some
          {| schema := [ ("Metric", Utf8); ("Value", Int64) ];
             rows := [ [Str "Total Nodes"; Int total_nodes];
                       [Str "Total CPUs"; Int total_cpus];
                       [Str "Total Memory (MB)"; Int total_memory];
                       [Str "Allocated CPUs"; Int allocated_cpus];
                       [Str "Allocated Memory (MB)"; Int allocated_memory];
                       [Str "Broken Nodes"; Int broken_nodes];
                       [Str "Nodes in Reservation"; Int reservation_nodes];
                       [Str "Mixed Nodes"; Int mixed_nodes] ] |})
  end.

(** [process_node_list], slurm.py lines 199-219. *)
Definition process_node_list
    (scontrol_data : option (gmap string (list Scontrol.node)))
  : result (option DataFrame) :=
  match scontrol_data with
  | None => mret None
  | Some d =>
      if negb (dict_truthy d) || negb (contains "nodes" d) then mret None
      else
        nodes_df ← getitem d "nodes";
        _ ← Pl.col "name" nodes_df;
        let node_list_df :=
          {| schema := [ ("Node Name", Utf8); ("State", Utf8);
                         ("Total Cores", Int64); ("Allocated Cores", Int64);
                         ("Total Memory (MB)", Int64);
                         ("Allocated Memory (MB)", Int64);
                         ("Free Memory (MB)", Int64); ("Partitions", Utf8);
                         ("CPU Load", Int64) ];
             rows := (λ n,
                        [ Str (Scontrol.name n);
                          Str (String.concat ", " (Scontrol.state n));
                          Int (Scontrol.cpus n);
                          Int (Scontrol.alloc_cpus n);
                          Int (Scontrol.real_memory n);
                          Int (Scontrol.alloc_memory n);
                          Int (Scontrol.real_memory n
                               - Scontrol.alloc_memory n);
                          Str (String.concat ", " (Scontrol.partitions n));
                          Int (Scontrol.cpu_load n) ]) <$> nodes_df |} in
        Some <$> Pl.sort "Node Name" false node_list_df
  end.

(* ===================================================================== *)
(** ** Waiting times of pending jobs *)
(* ===================================================================== *)

(** The frame with the three metrics at zero, slurm.py lines 268-271 and
    285-288. *)
Definition waiting_times_frame (vmax vmedian vmean : string) : DataFrame :=
  {| schema := [ ("Metric", Utf8); ("Value", Utf8) ];
     rows := [ [Str "Max Waiting Time"; Str vmax];
               [Str "Median Waiting Time"; Str vmedian];
               [Str "Mean Waiting Time"; Str vmean] ] |}.

(** The filter of slurm.py lines 275-279. *)
Definition pending_with_times (j : Squeue.job) : bool :=
  bool_decide ("PENDING" ∈ Squeue.job_state j)
  && negb (Squeue.number (Squeue.eligible_time j) =? 0)
  && negb (Squeue.number (Squeue.start_time j) =? 0).

(** The column [waiting_time_seconds], slurm.py line 280. *)
Definition waiting_time_seconds (j : Squeue.job) : Z :=
  Squeue.number (Squeue.start_time j)
  - Squeue.number (Squeue.eligible_time j).

(** [x or y] for the [x] that [.item()] yields: [None] for a null, else a
    number; [or] passes to [y] when [x] is [None] or zero. *)
Definition or_ (x : option number) (y : number) : number :=
  match x with
  | None => y
  | Some (PyInt z) => if z =? 0 then y else PyInt z
  | Some (PyFloat q) => if Qeq_bool q 0 then y else PyFloat q
  end.

(** [float(x or 0.0)], slurm.py lines 290-292. *)
Definition float_or_zero (x : option number) : Q :=
  float (or_ x (PyFloat 0)).

(** [process_pending_job_waiting_times_summary], slurm.py lines 264-303. *)
Definition process_pending_job_waiting_times_summary
    (squeue_data : option (gmap string (list Squeue.job)))
  : result (option DataFrame) :=
  let zeros :=
    mret (Some (waiting_times_frame "0d 0h 0m 0s" "0d 0h 0m 0s"
                  "0d 0h 0m 0s")) in
  match squeue_data with
  | None => zeros
  | Some d =>
      if negb (dict_truthy d) || negb (contains "jobs" d) then zeros
      else
        jobs ← getitem d "jobs";
        if negb (list_truthy jobs) then zeros
        else
          let pending_jobs_df :=
            waiting_time_seconds <$> List.filter pending_with_times jobs in
          if bool_decide (pending_jobs_df = []) then zeros
          else
            let max_waiting_time :=
              float_or_zero (PyInt <$> Pl.max pending_jobs_df) in
            let median_waiting_time :=
              float_or_zero (PyFloat <$> Pl.median pending_jobs_df) in
            let mean_waiting_time :=
              float_or_zero (PyFloat <$> Pl.mean pending_jobs_df) in
            let fmt q := format_seconds_to_human_readable (Some (PyFloat q)) in
            mret (Some (waiting_times_frame (fmt max_waiting_time)
                          (fmt median_waiting_time) (fmt mean_waiting_time)))
  end.

(* ===================================================================== *)
(** ** The external data fetcher *)
(* ===================================================================== *)

(** [str.isspace] on the ASCII range. *)
Definition isspace (a : ascii) : bool :=
  let n := nat_of_ascii a in
  ((9 <=? n) && (n <=? 13) || (28 <=? n) && (n <=? 32))%nat.

Fixpoint lstrip (s : string) : string :=
  match s with
  | EmptyString => EmptyString
  | String a s' => if isspace a then lstrip s' else s
  end.

Definition reverse_string (s : string) : string :=
  string_of_list_ascii (rev (list_ascii_of_string s)).

(** [s.strip()]. *)
Definition strip (s : string) : string :=
  reverse_string (lstrip (reverse_string (lstrip s))).

(** [s.split()]: the maximal runs of non-blank characters; [cur] is the
    run being read. *)
Fixpoint split_from (cur : option string) (s : string) : list string :=
  match s with
  | EmptyString => option_list cur
  | String a s' =>
      if isspace a then option_list cur ++ split_from None s'
      else split_from (Some (default "" cur +:+ String a "")) s'
  end.

Definition split (s : string) : list string := split_from None s.

(** What a finished process hands back: its exit code, and what
    [stdout.decode()] and [stderr.decode()] yield ([None] when the bytes
    do not decode and [UnicodeDecodeError] is raised). *)
Record completed : Type := {
  returncode : Z;
  stdout_decode : option string;
  stderr_decode : option string
}.

(** What running a shell command can do. *)
Inductive outcome : Type :=
| spawn_raises (e : exn)        (* create_subprocess_shell raises *)
| communicate_raises (e : exn)  (* process.communicate raises *)
| exits (c : completed).

(** The exceptions the environment raises derive from [Exception]. *)
Definition raises_Exception_only (o : outcome) : Prop :=
  ∀ e, o = spawn_raises e ∨ o = communicate_raises e → is_Exception e = true.

Section Fetcher.

(** The documents [json.loads] yields, other than [None]. *)
Variable J : Type.

(** [json.loads]: [None] when it raises [JSONDecodeError], [Some None]
    for the document [null], which Python reads as [None]. *)
Variable json_loads : string → option (option J).

(** [str(e)], as the f-string of line 25 renders the exception. *)
Variable str_exn : exn → string.

(** A call: the lines printed, and the result. *)
Definition io (A : Type) : Type := (list string * result A)%type.

(** The [try] block of [get_slurm_data], slurm.py lines 7-17. *)
Definition get_slurm_data_try (command : string) (o : outcome)
  : io (option J) :=
  match o with
  | spawn_raises e => ([], Raise e)
  | communicate_raises e => ([], Raise e)
  | exits c =>
      if negb (returncode c =? 0) then
        match stderr_decode c with
        | None => ([], Raise UnicodeDecodeError)
        | Some err =>
            (["Error running " +:+ command +:+ ": " +:+ strip err],
             Return None)
        end
      else
        match stdout_decode c with
        | None => ([], Raise UnicodeDecodeError)
        | Some out =>
            match json_loads (strip out) with
            | None => ([], Raise JSONDecodeError)
            | Some v => ([], Return v)
            end
        end
  end.

(** [get_slurm_data], slurm.py lines 5-26: the [try] block under its
    three [except] clauses.  An exception raised inside a clause, and one
    that does not derive from [Exception], leave the function. *)
Definition get_slurm_data (command : string) (o : outcome)
  : io (option J) :=
  match get_slurm_data_try command o with
  | (out, Return v) => (out, Return v)
  | (out, Raise FileNotFoundError) =>
      match split command with
      | [] => (out, Raise IndexError)
      | c0 :: _ =>
          (out ++ ["Error: Command '" +:+ c0
                   +:+ "' not found. Is Slurm installed and in your PATH?"],
           Return None)
      end
  | (out, Raise JSONDecodeError) =>
      (out ++ ["Error: Could not decode JSON from " +:+ command
               +:+ " output."],
       Return None)
  | (out, Raise e) =>
      if is_Exception e then
        (out ++ ["An unexpected error occurred while running " +:+ command
                 +:+ ": " +:+ str_exn e],
         Return None)
      else (out, Raise e)
  end.

(** The document a run yields: [None] on a failure (an exception, a
    non-zero exit code, output that does not decode or is not JSON). *)
Definition decoded_document (o : outcome) : option (option J) :=
  match o with
  | exits c =>
      if returncode c =? 0
      then out ← stdout_decode c; json_loads (strip out)
      else None
  | _ => None
  end.

(** [await asyncio.gather(...)]: the results in the order of the tasks,
    or the exception of a task that raised.  (The printed lines are
    listed task by task; the event loop may interleave them.) *)
Definition gather {A} (tasks : list (io A)) : io (list A) :=
  (concat (tasks.*1), mapM id (tasks.*2)).

(** [results[i]]. *)
Definition index {A} (l : list A) (i : nat) : result A :=
  from_option Return (Raise IndexError) (l !! i).

(** What each shell command does when it is run. *)
Variable run : string → outcome.

(** [get_all_slurm_data], slurm.py lines 48-60. *)
Definition get_all_slurm_data : io (gmap string (option J)) :=
  let sinfo_task := get_slurm_data "sinfo --json" (run "sinfo --json") in
  let squeue_task :=
    get_slurm_data "squeue --json" (run "squeue --json") in
  let scontrol_task :=
    get_slurm_data "scontrol show nodes --json"
      (run "scontrol show nodes --json") in
  let '(out, results) := gather [sinfo_task; squeue_task; scontrol_task] in
  (out,
   results ← results;
   r0 ← index results 0;
   r1 ← index results 1;
   r2 ← index results 2;
   mret {[ "sinfo" := r0; "squeue" := r1; "scontrol" := r2 ]}).

(** [all_data["current_time"]], the look-up of tui.py lines 367
    ([SlurmMonitorApp.on_mount]) and 419 ([SlurmMonitorApp.update_data])
    in the mapping [all_data = await get_all_slurm_data()]. *)
Definition all_data_current_time (all_data : gmap string (option J))
  : result (option J) :=
  getitem all_data "current_time".

End Fetcher.

(* ===================================================================== *)
(** ** The vocabulary of the specification *)
(* ===================================================================== *)



#[global] Instance Q_eq_dec : EqDecision Q.
Proof. solve_decision. Defined.

#[global] Instance value_eq_dec : EqDecision value.
Proof. solve_decision. Defined.

(** The "Value" of the row of a two-column table whose "Metric" is [m]. *)
Definition metric (m : string) (df : DataFrame) : option value :=
  (λ r, cell 1 r.2) <$> list_find (λ row, cell 0 row = Str m) (rows df).

(** The vocabulary of states that make a node count as broken. *)
Definition broken_vocabulary : gset string :=
  {[ "DRAINED"; "DRAINING"; "DRAIN"; "DOWN"; "FAIL"; "NO_RESPOND";
     "POWER_DOWN"; "POWER_UP"; "RESUME"; "UNKNOWN" ]}.

Definition is_broken (n : Scontrol.node) : Prop :=
  Exists (λ s, s ∈ broken_vocabulary) (Scontrol.state n).

Definition in_reservation (n : Scontrol.node) : Prop :=
  "RESERVATION" ∈ Scontrol.state n.

Definition is_mixed (n : Scontrol.node) : Prop :=
  0 < Scontrol.alloc_cpus n < Scontrol.cpus n.

(** The number of elements of [l] that satisfy [P]. *)
Definition count {A} (P : A → Prop) `{∀ x, Decision (P x)} (l : list A) : Z :=
  Z.of_nat (length (filter P l)).

#[global] Instance is_broken_dec n : Decision (is_broken n).
Proof. unfold is_broken. apply _. Defined.
#[global] Instance in_reservation_dec n : Decision (in_reservation n).
Proof. unfold in_reservation. apply _. Defined.
#[global] Instance is_mixed_dec n : Decision (is_mixed n).
Proof. unfold is_mixed. apply _. Defined.

(** A job counts for the waiting-time statistics when PENDING is among its
    states and both of its times are set. *)
Definition qualifies (j : Squeue.job) : Prop :=
  "PENDING" ∈ Squeue.job_state j
  ∧ Squeue.number (Squeue.eligible_time j) ≠ 0
  ∧ Squeue.number (Squeue.start_time j) ≠ 0.

#[global] Instance qualifies_dec j : Decision (qualifies j).
Proof. unfold qualifies. apply _. Defined.

(** The jobs of a payload: none when it is [None] or has no "jobs". *)
Definition jobs_of (squeue_data : option (gmap string (list Squeue.job)))
  : list Squeue.job :=
  match squeue_data with
  | Some d => default [] (d !! "jobs")
  | None => []
  end.



(** The rows a job contributes to the exploded frame: one per state, and
    one when it has no state. *)
Definition exploded_rows (j : Squeue.job) : nat :=
  Nat.max 1 (length (Squeue.job_state j)).



Definition mknode (c rm ac am : Z) (st : list string) : Scontrol.node :=
  {| Scontrol.name := "node"; Scontrol.state := st; Scontrol.cpus := c;
     Scontrol.alloc_cpus := ac; Scontrol.real_memory := rm;
     Scontrol.alloc_memory := am; Scontrol.partitions := [];
     Scontrol.cpu_load := 0 |}.

Definition MOCK_SCONTROL_JSON : gmap string (list Scontrol.node) :=
  {[ "nodes" :=
     [ mknode 4 16000 0 0 ["IDLE"];
       mknode 8 32000 4 16000 ["ALLOCATED"];
       mknode 4 16000 0 0 ["DRAINED"];
       mknode 8 32000 4 16000 ["RESERVATION"; "ALLOCATED"];
       mknode 8 32000 2 8000 ["MIXED"] ] ]}.

Definition mkjob (a : string) (st : list string) (u : string) (e s : Z)
  : Squeue.job :=
  {| Squeue.account := a; Squeue.job_state := st; Squeue.user_name := u;
     Squeue.eligible_time := {| Squeue.number := e |};
     Squeue.start_time := {| Squeue.number := s |} |}.

(** A decoder that knows two documents, for examples. *)
Definition sample_loads (s : string) : option (option nat) :=
  if bool_decide (s = "{}") then Some (Some 0%nat)
  else if bool_decide (s = "null") then Some None
  else None.

Definition sample_str_exn (e : exn) : string := "error".

Definition sample_run (command : string) : outcome :=
  if bool_decide (command = "sinfo --json")
  then exits {| returncode := 0; stdout_decode := Some " {} ";
                stderr_decode := Some "" |}
  else if bool_decide (command = "squeue --json")
  then spawn_raises FileNotFoundError
  else exits {| returncode := 1; stdout_decode := Some "";
                stderr_decode := Some "slurm_load_node error" |}.

(* ===================================================================== *)
(** ** The text fetcher and the configuration screen *)
(* ===================================================================== *)


Section TextFetcher.

(** [str(e)], as the f-string of line 45 renders the exception. *)
Variable str_exn : exn → string.



(** What each shell command does when it is run. *)
Variable run : string → outcome.


(** Truth value of a [str]. *)
Definition str_truthy (s : string) : bool :=
  match s with
  | EmptyString => false
  | String _ _ => true
  end.


End TextFetcher.

(* ===================================================================== *)
(** ** The table widget and the views *)
(* ===================================================================== *)

(** The part of textual's [DataTable] the views use: its column headers
    and its rows.  [clear()] removes the rows and keeps the columns. *)
Module Tx.

Record DataTable : Type := {
  columns : list string;
  rows : list (list value)
}.

Definition empty : DataTable := {| columns := []; rows := [] |}.

Definition add_columns (labels : list string) (t : DataTable) : DataTable :=
  {| columns := columns t ++ labels; rows := rows t |}.

Definition clear (t : DataTable) : DataTable :=
  {| columns := columns t; rows := [] |}.

Definition add_rows (rs : list (list value)) (t : DataTable) : DataTable :=
  {| columns := columns t; rows := rows t ++ rs |}.

End Tx.

(** [pat in s]: [pat] occurs in [s] as a contiguous run of characters. *)
Fixpoint str_contains (pat s : string) : bool :=
  String.prefix pat s
  || match s with
     | EmptyString => false
     | String _ s' => str_contains pat s'
     end.

(** [df.filter(pl.col(name).str.contains(pat, literal=True))]: the rows
    whose cell under [name] is a string containing [pat]. *)
Definition filter_str_contains (name pat : string) (df : DataFrame)
  : result DataFrame :=
  match column_index name (Pl.columns df) with
  | None => Raise (ColumnNotFoundError name)
  | Some i =>
      Return {| schema := schema df;
                rows := List.filter
                          (λ row, match cell i row with
                                  | Str s => str_contains pat s
                                  | _ => false
                                  end)
                          (Pl.rows df) |}
  end.

(** [NodeScreen.filter_nodes] (tui.py lines 133-146) with
    [name_col = "Node Name"], and [PartitionScreen.filter_partitions]
    (tui.py lines 227-240) with [name_col = "Partition Name"]: the table
    after the call, given the cached list and the search term. *)
Definition filter_list (name_col : string) (list_ : option DataFrame)
    (search_term : string) (table : Tx.DataTable) : result Tx.DataTable :=
  match list_ with
  | None => mret table
  | Some list_ =>
      let table :=
        if negb (list_truthy (Tx.columns table))
        then Tx.add_columns (Pl.columns list_) table
        else table in
      filtered_list ←
        (if str_truthy search_term
         then filter_str_contains name_col search_term list_
         else mret list_);
      mret (Tx.add_rows (Pl.rows filtered_list) (Tx.clear table))
  end.

Definition filter_nodes := filter_list "Node Name".
Definition filter_partitions := filter_list "Partition Name".

(** The state of a [NodeScreen]: the cached list, the value of the search
    input, the table. *)
Record node_screen : Type := {
  node_list : option DataFrame;
  search_value : string;
  node_list_table : Tx.DataTable
}.

Section NodeScreen.

Variable str_exn : exn → string.

(** [json.loads] at the type of the document [process_node_list] reads. *)
Variable json_loads
  : string → option (option (gmap string (list Scontrol.node))).

(** [NodeScreen.update_nodes], tui.py lines 128-131, on the outcome [o] of
    the command: the lines printed, the screen afterwards, and whether the
    call returned.  An exception leaves the screen as the statements
    before it made it. *)
Definition update_nodes (o : outcome) (scr : node_screen)
  : list string * node_screen * result unit :=
  let '(out, fetched) :=
    get_slurm_data _ json_loads str_exn "scontrol show nodes --json" o in
  match fetched with
  | Raise e => (out, scr, Raise e)
  | Return scontrol_data =>
      match process_node_list scontrol_data with
      | Raise e => (out, scr, Raise e)
      | Return nl =>
          let scr := {| node_list := nl; search_value := search_value scr;
                        node_list_table := node_list_table scr |} in
          match filter_nodes nl (search_value scr) (node_list_table scr) with
          | Raise e => (out, scr, Raise e)
          | Return table =>
              (out,
               {| node_list := nl; search_value := search_value scr;
                  node_list_table := table |},
               Return ())
          end
      end
  end.

End NodeScreen.

(** [NodeScreen.on_input_changed], tui.py lines 163-164, with the new value
    of the search input. *)
Definition on_input_changed (value : string) (scr : node_screen)
  : node_screen * result unit :=
  let scr := {| node_list := node_list scr; search_value := value;
                node_list_table := node_list_table scr |} in
  match filter_nodes (node_list scr) value (node_list_table scr) with
  | Raise e => (scr, Raise e)
  | Return table =>
      ({| node_list := node_list scr; search_value := value;
          node_list_table := table |}, Return ())
  end.

(* ===================================================================== *)
(** ** The home view of main.py *)
(* ===================================================================== *)

(** The widgets [SlurmMonitorApp] writes to (main.py lines 374-384). *)
Record home : Type := {
  partition_summary_table : Tx.DataTable;
  node_summary_table : Tx.DataTable;
  job_summary_table : Tx.DataTable;
  user_job_summary_table : Tx.DataTable;
  account_job_summary_table : Tx.DataTable;
  last_updated : string
}.

(** The integer a cell holds; a null adds nothing to a sum. *)
Definition int_of (v : value) : Z :=
  match v with
  | Int z => z
  | _ => 0
  end.

(** [df.select(pl.sum(name)).item()]. *)
Definition select_sum_column (name : string) (df : DataFrame) : result Z :=
  match column_index name (Pl.columns df) with
  | None => Raise (ColumnNotFoundError name)
  | Some i => Return (Pl.sum ((λ row, int_of (cell i row)) <$> Pl.rows df))
  end.

(** [df.select(pl.sum(name)).item() if name in df.columns else 0]. *)
Definition sum_if_present (name : string) (df : DataFrame) : result Z :=
  if bool_decide (name ∈ Pl.columns df) then select_sum_column name df
  else mret 0.

(** A statement of the home view acts on the widgets and may raise: the
    widgets as they are when it ends, and its result. *)
Definition act (A : Type) : Type := home → home * result A.

Definition act_ret {A} (a : A) : act A := λ h, (h, Return a).

Definition act_bind {A B} (m : act A) (k : A → act B) : act B :=
  λ h, match m h with
       | (h', Return a) => k a h'
       | (h', Raise e) => (h', Raise e)
       end.

(** A computation that touches no widget. *)
Definition lift {A} (r : result A) : act A := λ h, (h, r).

(** [table.clear(); table.add_rows(rs)]. *)
Definition replace_rows (rs : list (list value)) (t : Tx.DataTable)
  : Tx.DataTable :=
  Tx.add_rows rs (Tx.clear t).

(** A method call on one of the five tables. *)
Definition on_partition_table (f : Tx.DataTable → Tx.DataTable) : act unit :=
  λ h, ({| partition_summary_table := f (partition_summary_table h);
           node_summary_table := node_summary_table h;
           job_summary_table := job_summary_table h;
           user_job_summary_table := user_job_summary_table h;
           account_job_summary_table := account_job_summary_table h;
           last_updated := last_updated h |}, Return ()).

Definition on_node_table (f : Tx.DataTable → Tx.DataTable) : act unit :=
  λ h, ({| partition_summary_table := partition_summary_table h;
           node_summary_table := f (node_summary_table h);
           job_summary_table := job_summary_table h;
           user_job_summary_table := user_job_summary_table h;
           account_job_summary_table := account_job_summary_table h;
           last_updated := last_updated h |}, Return ()).

Definition on_job_table (f : Tx.DataTable → Tx.DataTable) : act unit :=
  λ h, ({| partition_summary_table := partition_summary_table h;
           node_summary_table := node_summary_table h;
           job_summary_table := f (job_summary_table h);
           user_job_summary_table := user_job_summary_table h;
           account_job_summary_table := account_job_summary_table h;
           last_updated := last_updated h |}, Return ()).

Definition on_user_job_table (f : Tx.DataTable → Tx.DataTable) : act unit :=
  λ h, ({| partition_summary_table := partition_summary_table h;
           node_summary_table := node_summary_table h;
           job_summary_table := job_summary_table h;
           user_job_summary_table := f (user_job_summary_table h);
           account_job_summary_table := account_job_summary_table h;
           last_updated := last_updated h |}, Return ()).

Definition on_account_job_table (f : Tx.DataTable → Tx.DataTable)
  : act unit :=
  λ h, ({| partition_summary_table := partition_summary_table h;
           node_summary_table := node_summary_table h;
           job_summary_table := job_summary_table h;
           user_job_summary_table := user_job_summary_table h;
           account_job_summary_table := f (account_job_summary_table h);
           last_updated := last_updated h |}, Return ()).

(** [CustomFooter.update_timestamp], main.py lines 343-346, with [now] the
    text of [datetime.datetime.now().ctime()]. *)
Definition update_timestamp (now : string) : act unit :=
  λ h, ({| partition_summary_table := partition_summary_table h;
           node_summary_table := node_summary_table h;
           job_summary_table := job_summary_table h;
           user_job_summary_table := user_job_summary_table h;
           account_job_summary_table := account_job_summary_table h;
           last_updated := "Last updated: " +:+ now |}, Return ()).

(** [SlurmMonitorApp.update_data], main.py lines 424-469, from the three
    documents it looks up in [all_data].  ([process_job_summaries] always
    returns two frames, so the test of line 446 holds.) *)
Definition update_data
    (sinfo_data : option (gmap string (list Sinfo.record)))
    (squeue_data : option (gmap string (list Squeue.job)))
    (scontrol_data : option (gmap string (list Scontrol.node)))
    (now : string) : act unit :=
  act_bind (lift (process_partition_summary sinfo_data))
    (λ partition_summary,
  act_bind (match partition_summary with
            | Some df => on_partition_table (replace_rows (Pl.rows df))
            | None => act_ret ()
            end) (λ _,
  act_bind (lift (process_node_summary scontrol_data)) (λ node_summary,
  act_bind (match node_summary with
            | Some df => on_node_table (replace_rows (Pl.rows df))
            | None => act_ret ()
            end) (λ _,
  act_bind (lift (process_job_summaries squeue_data)) (λ summaries,
  let account_summary := summaries.1 in
  let user_summary := summaries.2 in
  act_bind (lift (sum_if_present "RUNNING" account_summary))
    (λ total_running_jobs,
  act_bind (lift (sum_if_present "PENDING" account_summary))
    (λ total_pending_jobs,
  act_bind (on_job_table
              (replace_rows
                 [ [Str "Running Jobs"; Int total_running_jobs];
                   [Str "Pending Jobs"; Int total_pending_jobs] ]))
    (λ _,
  act_bind (on_user_job_table (replace_rows (Pl.rows user_summary))) (λ _,
  act_bind (on_account_job_table (replace_rows (Pl.rows account_summary)))
    (λ _,
  update_timestamp now)))))))))).

(** The headers [on_mount] gives the two job tables, main.py lines 418
    and 420. *)
Definition job_table_headers (key_col : string) : list string :=
  [ key_col; "Total Jobs"; "RUNNING"; "PENDING"; "COMPLETED"; "CANCELLED";
    "FAILED"; "TIMEOUT"; "NODE_FAIL"; "PREEMPTED"; "SUSPENDED" ].

(** [SlurmMonitorApp.on_mount], main.py lines 386-422, from the documents
    of its own fetch and those of the fetch of the [update_data] it ends
    with. *)
Definition on_mount
    (sinfo_data : option (gmap string (list Sinfo.record)))
    (squeue_data : option (gmap string (list Squeue.job)))
    (scontrol_data : option (gmap string (list Scontrol.node)))
    (sinfo_data' : option (gmap string (list Sinfo.record)))
    (squeue_data' : option (gmap string (list Squeue.job)))
    (scontrol_data' : option (gmap string (list Scontrol.node)))
    (now : string) : act unit :=
  act_bind (lift (process_partition_summary sinfo_data))
    (λ partition_summary,
  act_bind (match partition_summary with
            | Some df => on_partition_table (Tx.add_columns (Pl.columns df))
            | None => act_ret ()
            end) (λ _,
  act_bind (lift (process_node_summary scontrol_data)) (λ node_summary,
  act_bind (match node_summary with
            | Some df => on_node_table (Tx.add_columns (Pl.columns df))
            | None => act_ret ()
            end) (λ _,
  act_bind (on_job_table (Tx.add_columns ["Metric"; "Value"])) (λ _,
  act_bind (lift (process_job_summaries squeue_data)) (λ _,
  act_bind (on_account_job_table
              (Tx.add_columns (job_table_headers "account"))) (λ _,
  act_bind (on_user_job_table
              (Tx.add_columns (job_table_headers "user_name"))) (λ _,
  update_data sinfo_data' squeue_data' scontrol_data' now)))))))).

(* ===================================================================== *)
(** ** More vocabulary *)
(* ===================================================================== *)




(** How often job [j] lists state [s]; the null state stands for an empty
    state list. *)
Definition state_count (s : option string) (j : Squeue.job) : nat :=
  match s with
  | Some st => length (filter (λ x, x = st) (Squeue.job_state j))
  | None => if decide (Squeue.job_state j = []) then 1%nat else 0%nat
  end.

(** A payload with one job that lists two states. *)
Definition TWO_STATE_JOB : gmap string (list Squeue.job) :=
  {[ "jobs" := [ mkjob "a" ["RUNNING"; "COMPLETING"] "u" 0 0 ] ]}.

(** The five tables of [h'] have the columns of those of [h]. *)
Definition same_columns (h h' : home) : Prop :=
  Tx.columns (partition_summary_table h')
  = Tx.columns (partition_summary_table h)
  ∧ Tx.columns (node_summary_table h') = Tx.columns (node_summary_table h)
  ∧ Tx.columns (job_summary_table h') = Tx.columns (job_summary_table h)
  ∧ Tx.columns (user_job_summary_table h')
    = Tx.columns (user_job_summary_table h)
  ∧ Tx.columns (account_job_summary_table h')
    = Tx.columns (account_job_summary_table h).

(** A statement that leaves the columns of the five tables as they are. *)
Definition keeps_columns {A} (m : act A) : Prop :=
  ∀ h, same_columns h (m h).1.

(** The home view before [on_mount]. *)
Definition fresh_home : home :=
  {| partition_summary_table := Tx.empty;
     node_summary_table := Tx.empty;
     job_summary_table := Tx.empty;
     user_job_summary_table := Tx.empty;
     account_job_summary_table := Tx.empty;
     last_updated := "" |}.

(* ===================================================================== *)
(** * Properties *)
(* ===================================================================== *)

(** C8.  [format_seconds_to_human_readable] maps [None] to "N/A"; any
    other argument is truncated to an integer [t] and rendered as
    "{d}d {h}h {m}m {s}s" where [d = t // 86400], [h = (t % 86400) // 3600],
    [m = (t % 3600) // 60], [s = t % 60]; these four recompose to [t] with
    [h < 24], [m < 60], [s < 60].  Truncation drops the fractional part,
    toward zero.  The five sample values of the specification are as
    stated. *)
Theorem format_seconds_decomposition :
  format_seconds_to_human_readable None = "N/A"
  /\ (forall x : number,
        let t := int x in
        let d := t / 86400 in
        let h := (t mod 86400) / 3600 in
        let m := (t mod 3600) / 60 in
        let s := t mod 60 in
        format_seconds_to_human_readable (Some x) = dhms d h m s
        /\ d * 86400 + h * 3600 + m * 60 + s = t
        /\ 0 <= h < 24 /\ 0 <= m < 60 /\ 0 <= s < 60)
  /\ (forall q : Q,
        ((0 <= q)%Q ->
         (inject_Z (int (PyFloat q)) <= q < inject_Z (int (PyFloat q)) + 1)%Q)
        /\ ((q <= 0)%Q ->
            (inject_Z (int (PyFloat q)) - 1 < q <= inject_Z (int (PyFloat q)))%Q))
  /\ format_seconds_to_human_readable (Some (PyInt 0)) = "0d 0h 0m 0s"
  /\ format_seconds_to_human_readable (Some (PyInt 60)) = "0d 0h 1m 0s"
  /\ format_seconds_to_human_readable (Some (PyInt 3600)) = "0d 1h 0m 0s"
  /\ format_seconds_to_human_readable (Some (PyInt 86400)) = "1d 0h 0m 0s"
  /\ format_seconds_to_human_readable (Some (PyInt 90061)) = "1d 1h 1m 1s".
Proof.
  split; [reflexivity|].
  split.
  { intros x t d h m s.
    assert (E1 : (t mod 86400) mod 3600 = t mod 3600)
      by (apply Z.mod_mod_divide; exists 24; lia).
    assert (E2 : (t mod 3600) mod 60 = t mod 60)
      by (apply Z.mod_mod_divide; exists 60; lia).
    split.
    - unfold format_seconds_to_human_readable, dhms. fold t.
      change (24 * 3600) with 86400. rewrite E1, E2. reflexivity.
    - subst d h m s. Z.div_mod_to_equations. lia. }
  split.
  { intros [n p]. split; intros Hq; unfold Qle, Qlt in *; cbn in *.
    - pose proof (Z.quot_div_nonneg n (Z.pos p)) as Hd.
      rewrite Hd by lia. Z.div_mod_to_equations. nia.
    - assert (Hd : n ÷ Z.pos p = - ((- n) / Z.pos p)).
      { rewrite <- (Z.quot_div_nonneg (- n)) by lia.
        rewrite Z.quot_opp_l by lia. lia. }
      rewrite Hd. Z.div_mod_to_equations. nia. }
  repeat split; reflexivity.
Qed.



(* ===================================================================== *)
(** ** Facts about the polars operations *)
(* ===================================================================== *)

Section GroupByFacts.
Context {A K : Type} `{EqDecision K}.
Implicit Types (k : K) (x : A) (groups : list (K * list A)).

Lemma add_to_group_keys k x groups :
  (add_to_group k x groups).*1
  = if decide (k ∈ groups.*1) then groups.*1 else groups.*1 ++ [k].
Proof.
  induction groups as [|[k' g] rest IH].
  - case_decide as Hin; [by apply elem_of_nil in Hin | done].
  - cbn [add_to_group]. destruct (decide (k = k')) as [->|Hne].
    + rewrite decide_True; [done | left].
    + rewrite !fmap_cons, IH. cbn [fst].
      destruct (decide (k ∈ rest.*1)) as [Hin|Hin].
      * rewrite decide_True; [done | by right].
      * rewrite decide_False; [done |].
        intros [?|?]%elem_of_cons; done.
Qed.

Lemma group_of_add_to_group k' k x groups :
  group_of k' (add_to_group k x groups)
  = if decide (k' = k) then group_of k' groups ++ [x]
    else group_of k' groups.
Proof.
  induction groups as [|[k0 g] rest IH]; simpl.
  - by destruct (decide (k' = k)).
  - destruct (decide (k = k0)) as [->|Hne]; simpl.
    + destruct (decide (k' = k0)); done.
    + rewrite IH. destruct (decide (k' = k0)) as [->|]; [|done].
      by rewrite decide_False.
Qed.


Variable key : A → K.

Local Abbreviation step := (λ groups x, add_to_group (key x) x groups).

Lemma group_fold_of k (df : list A) groups :
  group_of k (foldl step groups df)
  = group_of k groups ++ filter (λ x, key x = k) df.
Proof.
  revert groups. induction df as [|x df IH]; intros groups; cbn [foldl].
  - by rewrite app_nil_r.
  - rewrite IH, group_of_add_to_group, filter_cons.
    repeat case_decide; try congruence.
    by rewrite <- app_assoc.
Qed.

Lemma group_fold_keys k (df : list A) groups :
  k ∈ (foldl step groups df).*1 ↔ k ∈ groups.*1 ∨ ∃ x, x ∈ df ∧ key x = k.
Proof.
  revert groups. induction df as [|x df IH]; intros groups; cbn [foldl].
  - split; [by left | intros [?|(x & Hx & _)]; [done|]].
    by apply elem_of_nil in Hx.
  - rewrite IH, add_to_group_keys.
    split.
    + intros [Hin|(y & Hy & <-)].
      * destruct (decide (key x ∈ groups.*1)); [by left|].
        apply elem_of_app in Hin as [?|Heq]; [by left|].
        apply list_elem_of_singleton in Heq as ->.
        right; exists x; split; [left | done].
      * right. exists y. split; [by right | done].
    + intros [Hin|(y & [->|Hy]%elem_of_cons & <-)].
      * left. destruct (decide (key x ∈ groups.*1)); [done|].
        apply elem_of_app. by left.
      * left. destruct (decide (key x ∈ groups.*1)); [done|].
        apply elem_of_app. right. by apply list_elem_of_singleton.
      * right. by exists y.
Qed.



Lemma group_by_keys k (df : list A) :
  k ∈ (group_by key df).*1 ↔ ∃ x, x ∈ df ∧ key x = k.
Proof.
  unfold group_by. rewrite group_fold_keys.
  split; [intros [Hx|?]; [by apply elem_of_nil in Hx | done] | by right].
Qed.


Lemma group_by_group_of k (df : list A) :
  group_of k (group_by key df) = filter (λ x, key x = k) df.
Proof. unfold group_by. by rewrite group_fold_of. Qed.

End GroupByFacts.

Lemma elem_of_unique {K} `{EqDecision K} (x : K) (l : list K) :
  x ∈ unique l ↔ x ∈ l.
Proof.
  induction l as [|y l IH]; cbn [unique]; [done|].
  rewrite !elem_of_cons, list_elem_of_filter, IH.
  destruct (decide (x = y)); naive_solver.
Qed.

Lemma NoDup_unique {K} `{EqDecision K} (l : list K) : NoDup (unique l).
Proof.
  induction l as [|y l IH]; cbn [unique]; [constructor|].
  apply NoDup_cons. split.
  - rewrite list_elem_of_filter. naive_solver.
  - by apply NoDup_filter.
Qed.

Lemma value_leb_total (a b : value) : value_leb a b ∨ value_leb b a.
Proof.
  destruct a as [|s|x|p], b as [|t|y|q]; cbn; auto.
  - destruct (String.leb_total s t) as [->| ->]; cbn; auto.
  - destruct (Z.leb_spec x y), (Z.leb_spec y x); cbn; auto; lia.
  - destruct (Qlt_le_dec q p) as [Hlt|Hle].
    + right. apply Is_true_true, Qle_bool_iff. by apply Qlt_le_weak.
    + left. by apply Is_true_true, Qle_bool_iff.
Qed.

Lemma row_le_total i descending : Total (row_le i descending).
Proof.
  intros r1 r2. unfold row_le. destruct descending.
  - destruct (value_leb_total (cell i r1) (cell i r2)); auto.
  - apply value_leb_total.
Qed.

(** [sort] keeps the schema, permutes the rows and leaves them in order. *)
Lemma sort_spec by_ descending df i :
  column_index by_ (columns df) = Some i →
  ∃ rows', Pl.sort by_ descending df
           = Return {| schema := schema df; rows := rows' |}
    ∧ rows' ≡ₚ rows df
    ∧ Sorted (row_le i descending) rows'.
Proof.
  intros Hi. unfold Pl.sort. rewrite Hi. eexists. split; [done|]. split.
  - apply merge_sort_Permutation.
  - apply Sorted_merge_sort, row_le_total.
Qed.

Lemma Sorted_weaken {A} (R R' : relation A) (P : A → Prop) (l : list A) :
  (∀ x y, P x → P y → R x y → R' x y) →
  Forall P l → Sorted R l → Sorted R' l.
Proof.
  intros HR HP Hs. induction Hs as [|x l Hs IH Hhd]; [constructor|].
  apply Forall_cons in HP as [Hx Hl]. constructor; [by apply IH|].
  destruct Hhd as [|y l' Hxy]; constructor.
  apply Forall_cons in Hl as [Hy _]. by apply HR.
Qed.




Lemma filter_bool {A} (f : A → bool) (P : A → Prop)
    `{∀ x, Decision (P x)} (l : list A) :
  (∀ x, f x = true ↔ P x) →
  List.filter f l = filter P l.
Proof.
  intros Hf. induction l as [|x l IH]; [done|].
  cbn [List.filter]. rewrite filter_cons, IH.
  destruct (f x) eqn:Hfx, (decide (P x)) as [HP|HP]; auto.
  - apply Hf in Hfx. done.
  - apply Hf in HP. congruence.
Qed.

Lemma length_filter_bool {A} (f : A → bool) (P : A → Prop)
    `{∀ x, Decision (P x)} (l : list A) :
  (∀ x, f x = true ↔ P x) →
  length (List.filter f l) = length (filter P l).
Proof. intros Hf. by rewrite (filter_bool f P). Qed.

Lemma broken_nodes_condition_spec :
  ∃ cond, broken_nodes_condition = Some cond
          ∧ ∀ n, cond n = true ↔ is_broken n.
Proof.
  eexists. split; [reflexivity|].
  intros n. unfold is_broken, state_contains, broken_vocabulary.
  rewrite Exists_exists, !orb_true_iff, !bool_decide_eq_true.
  split.
  - intros H. decompose [or] H;
      match goal with
      | Hs : _ ∈ Scontrol.state n |- _ => eexists; split; [exact Hs|set_solver]
      end.
  - intros (s & Hs & Hv). set_unfold in Hv. naive_solver.
Qed.

Lemma dict_truthy_lookup {V} (d : gmap string V) k v :
  d !! k = Some v → dict_truthy d = true ∧ contains k d = true.
Proof.
  intros Hd. unfold dict_truthy, contains. rewrite Hd. split; [|done].
  rewrite bool_decide_eq_false_2; [done|].
  intros ->. by rewrite lookup_empty in Hd.
Qed.

(** C6.  On a payload whose "nodes" list is not empty, "Broken Nodes" is
    the number of nodes with a state in the broken vocabulary, "Nodes in
    Reservation" the number of nodes whose states contain RESERVATION, and
    "Mixed Nodes" the number of nodes with [0 < alloc_cpus < cpus]; for the
    five nodes of the specification's example the first is 1 and the last
    is 3. *)
Theorem node_summary_counts
    (d : gmap string (list Scontrol.node)) (nodes : list Scontrol.node) :
  d !! "nodes" = Some nodes →
  nodes ≠ [] →
  ∃ df,
    process_node_summary (Some d) = Return (Some df)
    ∧ metric "Broken Nodes" df = Some (Int (count is_broken nodes))
    ∧ metric "Nodes in Reservation" df
      = Some (Int (count in_reservation nodes))
    ∧ metric "Mixed Nodes" df = Some (Int (count is_mixed nodes))
    ∧ (Scontrol.state <$> nodes
         = [ ["IDLE"]; ["ALLOCATED"]; ["DRAINED"];
             ["RESERVATION"; "ALLOCATED"]; ["MIXED"] ] →
       (λ n, (Scontrol.cpus n, Scontrol.alloc_cpus n)) <$> nodes
         = [ (4, 0); (8, 4); (4, 0); (8, 4); (8, 2) ] →
       metric "Broken Nodes" df = Some (Int 1)
       ∧ metric "Mixed Nodes" df = Some (Int 3)).
Proof.
  intros Hd Hne.
  destruct (dict_truthy_lookup d _ _ Hd) as [Ht Hc].
  destruct broken_nodes_condition_spec as (cond & Hcond & Hbroken).
  unfold process_node_summary. rewrite Ht, Hc. cbn [negb orb].
  unfold getitem. rewrite Hd, Hcond.
  destruct nodes as [|n0 nodes']; [done|]. set (nodes := n0 :: nodes') in *.
  eexists. split; [reflexivity|].
  assert (Hb : Z.of_nat (length (List.filter cond nodes)) = count is_broken nodes).
  { unfold count. by rewrite (length_filter_bool cond is_broken). }
  assert (Hm : Z.of_nat (length (List.filter
                 (λ n, (0 <? Scontrol.alloc_cpus n)
                       && (Scontrol.alloc_cpus n <? Scontrol.cpus n)) nodes))
               = count is_mixed nodes).
  { unfold count. rewrite (length_filter_bool _ is_mixed); [done|].
    intros n. unfold is_mixed. rewrite andb_true_iff, !Z.ltb_lt. done. }
  split_and!.
  - rewrite <- Hb. reflexivity.
  - unfold count.
    rewrite <- (length_filter_bool (state_contains "RESERVATION") in_reservation);
      [reflexivity|].
    intros n. unfold state_contains, in_reservation. apply bool_decide_eq_true.
  - rewrite <- Hm. reflexivity.
  - intros Hst Hcpu.
    change (metric "Broken Nodes" _) with (Some (Int (Z.of_nat (length (List.filter cond nodes))))).
    change (metric "Mixed Nodes" _) with (Some (Int (Z.of_nat (length (List.filter
                 (λ n, (0 <? Scontrol.alloc_cpus n)
                       && (Scontrol.alloc_cpus n <? Scontrol.cpus n)) nodes))))).
    rewrite Hb, Hm. subst nodes. clear -Hst Hcpu.
    destruct nodes' as [|n1 [|n2 [|n3 [|n4 [|]]]]]; try discriminate.
    destruct n0, n1, n2, n3, n4. cbn in Hst, Hcpu.
    simplify_eq. split; vm_compute; reflexivity.
Qed.

Lemma node_summary_counts_witness :
  ∃ nodes, MOCK_SCONTROL_JSON !! "nodes" = Some nodes ∧ nodes ≠ []
    ∧ ∃ df, process_node_summary (Some MOCK_SCONTROL_JSON) = Return (Some df)
        ∧ metric "Broken Nodes" df = Some (Int 1)
        ∧ metric "Mixed Nodes" df = Some (Int 3).
Proof.
  eexists. split; [reflexivity|]. split; [discriminate|].
  destruct (node_summary_counts MOCK_SCONTROL_JSON _ eq_refl
              ltac:(discriminate)) as (df & H1 & _ & _ & _ & H2).
  exists df. split; [assumption|]. apply H2; reflexivity.
Defined.










(* ===================================================================== *)
(** ** Facts about the job summaries *)
(* ===================================================================== *)

Section CountFacts.
Context {A K : Type} `{EqDecision K}.

Lemma first_value_cons (k : K) (c : K * nat) (counts : list (K * nat)) :
  first_value k (c :: counts)
  = if decide (c.1 = k) then Some c.2 else first_value k counts.
Proof.
  unfold first_value. cbn [list_find].
  destruct (decide (c.1 = k)); [done|].
  rewrite <- option_fmap_compose. by destruct (list_find _ counts) as [[]|].
Qed.

Lemma first_value_lengths (k : K) (groups : list (K * list A)) :
  first_value k ((λ kg, (kg.1, length kg.2)) <$> groups)
  = if decide (k ∈ groups.*1) then Some (length (group_of k groups))
    else None.
Proof.
  induction groups as [|[k' g] rest IH].
  - cbn. case_decide as Hin; [by apply elem_of_nil in Hin | done].
  - rewrite !fmap_cons, first_value_cons, IH. cbn [fst snd group_of].
    destruct (decide (k' = k)) as [->|Hne].
    + rewrite !decide_True; [done.. | left].
    + rewrite (decide_False (P := k = k')) by done.
      destruct (decide (k ∈ rest.*1)) as [Hin|Hin].
      * rewrite decide_True; [done | by right].
      * rewrite decide_False; [done|].
        intros [?|?]%elem_of_cons; done.
Qed.

Variable key : A → K.

(** The count that [group_by(key).agg(pl.len())] holds for [k]. *)
Lemma first_value_group_len (k : K) (df : list A) :
  first_value k (group_len key df)
  = if decide (k ∈ key <$> df)
    then Some (length (filter (λ x, key x = k) df))
    else None.
Proof.
  unfold group_len. rewrite first_value_lengths, group_by_group_of.
  assert (Hiff : k ∈ (group_by key df).*1 ↔ k ∈ key <$> df).
  { rewrite group_by_keys, list_elem_of_fmap. naive_solver. }
  destruct (decide (k ∈ (group_by key df).*1)) as [Hin|Hin];
    case_decide; tauto.
Qed.

Lemma default_first_value_group_len (k : K) (df : list A) :
  default 0%nat (first_value k (group_len key df))
  = length (filter (λ x, key x = k) df).
Proof.
  rewrite first_value_group_len. case_decide as Hex; [done|].
  cbn. symmetry. apply length_zero_iff_nil.
  destruct (filter _ df) as [|x l] eqn:E; [done|].
  exfalso. apply Hex. apply list_elem_of_fmap. exists x.
  assert (Hx : x ∈ filter (λ x, key x = k) df) by (rewrite E; left).
  apply list_elem_of_filter in Hx as [? ?]. done.
Qed.

Lemma group_len_keys (df : list A) :
  (group_len key df).*1 = (group_by key df).*1.
Proof. unfold group_len. by rewrite <- list_fmap_compose. Qed.

End CountFacts.

Lemma column_index_second (c0 c1 : string) (cols : list string) :
  c0 ≠ c1 → column_index c1 (c0 :: c1 :: cols) = Some 1%nat.
Proof.
  intros Hne. unfold column_index. cbn [list_find].
  rewrite decide_False by done. by rewrite decide_True.
Qed.

(** What one job summary holds: a column per state that occurs; a row per
    key that occurs, with the number of exploded rows of that key under
    "Total Jobs" and the number of exploded rows of that key and state
    under each state; rows in descending order of "Total Jobs". *)
Lemma job_summary_spec (key_col : string) (key : Squeue.job → string)
    (df : list (Squeue.job * option string)) :
  key_col ≠ "Total Jobs" →
  ∃ (on : list (option string)) (rows' : list (list value)),
    job_summary key_col key df
    = Return {| schema := (key_col, Utf8) :: ("Total Jobs", UInt32)
                          :: ((λ s, (state_column s, UInt32)) <$> on);
                rows := rows' |}
    ∧ NoDup on
    ∧ (∀ s, s ∈ on ↔ s ∈ snd <$> df)
    ∧ (∃ keys, cell 0 <$> rows' = Str <$> keys ∧ NoDup keys
               ∧ ∀ k, k ∈ keys ↔ k ∈ (λ r, key r.1) <$> df)
    ∧ (∀ row, row ∈ rows' →
         ∃ k, row =
           Str k
           :: Int (Z.of_nat (length (filter (λ r, key r.1 = k) df)))
           :: ((λ s, Int (Z.of_nat (length
                  (filter (λ r, (key r.1, r.2) = (k, s)) df)))) <$> on))
    ∧ Sorted (λ r1 r2, ∃ a b, cell 1 r1 = Int a ∧ cell 1 r2 = Int b ∧ b <= a)
        rows'.
Proof.
  intros Hcol. unfold job_summary.
  set (counts := group_len (λ r, (key r.1, r.2)) df).
  set (on := unique ((λ c, c.1.2) <$> counts)).
  set (index := unique ((λ c, c.1.1) <$> counts)).
  set (total_jobs := group_len (λ r, key r.1) df).
  set (row_of := λ k : string,
         Str k
         :: Int (Z.of_nat (length (filter (λ r, key r.1 = k) df)))
         :: ((λ s, Int (Z.of_nat (length
                (filter (λ r, (key r.1, r.2) = (k, s)) df)))) <$> on)).
  assert (Hkeys : ∀ ks, ks ∈ counts.*1 ↔ ks ∈ (λ r, (key r.1, r.2)) <$> df).
  { intros ks. unfold counts. rewrite group_len_keys, group_by_keys.
    rewrite list_elem_of_fmap. naive_solver. }
  assert (Hon : ∀ s, s ∈ on ↔ s ∈ snd <$> df).
  { intros s. unfold on. rewrite elem_of_unique, !list_elem_of_fmap. split.
    - intros ([ks n] & -> & Hc).
      assert (Hks : ks ∈ counts.*1) by (apply list_elem_of_fmap; by exists (ks, n)).
      apply Hkeys, list_elem_of_fmap in Hks as (r & -> & Hr). by exists r.
    - intros (r & -> & Hr).
      assert (Hks : (key r.1, r.2) ∈ counts.*1).
      { apply Hkeys, list_elem_of_fmap. by exists r. }
      apply list_elem_of_fmap in Hks as ([ks n] & Heq & Hc). cbn in Heq. subst ks.
      by exists ((key r.1, r.2), n). }
  assert (Hindex : ∀ k, k ∈ index ↔ k ∈ (λ r, key r.1) <$> df).
  { intros k. unfold index. rewrite elem_of_unique, !list_elem_of_fmap. split.
    - intros ([ks n] & -> & Hc).
      assert (Hks : ks ∈ counts.*1) by (apply list_elem_of_fmap; by exists (ks, n)).
      apply Hkeys, list_elem_of_fmap in Hks as (r & -> & Hr). by exists r.
    - intros (r & -> & Hr).
      assert (Hks : (key r.1, r.2) ∈ counts.*1).
      { apply Hkeys, list_elem_of_fmap. by exists r. }
      apply list_elem_of_fmap in Hks as ([ks n] & Heq & Hc). cbn in Heq. subst ks.
      by exists ((key r.1, r.2), n). }
  match goal with
  | |- context [Pl.sort _ _ ?fr] => set (pre := fr)
  end.
  assert (Hpre : rows pre = row_of <$> index).
  { cbn [rows pre]. rewrite <- list_fmap_compose.
    apply Forall_fmap_ext_1, Forall_forall. intros k Hk. cbn [compose fst snd].
    unfold row_of, total_jobs. rewrite first_value_group_len.
    apply Hindex in Hk. rewrite decide_True by done. cbn [from_option].
    do 2 f_equal.
    rewrite <- list_fmap_compose. apply list_fmap_ext. intros _ s _. cbn.
    unfold counts. by rewrite default_first_value_group_len. }
  destruct (sort_spec "Total Jobs" true pre 1) as (rows' & Hsort & Hperm & Hsorted).
  { apply column_index_second. done. }
  exists on, rows'. rewrite Hpre in Hperm.
  assert (Hrow : ∀ row, row ∈ rows' → ∃ k, row = row_of k).
  { intros row Hrow. rewrite Hperm in Hrow.
    apply list_elem_of_fmap in Hrow as (k & -> & _). by exists k. }
  split_and!.
  - exact Hsort.
  - apply NoDup_unique.
  - exact Hon.
  - assert (Hk : cell 0 <$> rows' ≡ₚ Str <$> index).
    { rewrite Hperm. by rewrite <- list_fmap_compose. }
    apply Permutation_map_inv in Hk as (keys & Hk1 & Hk2).
    exists keys. split_and!; [done | |].
    + rewrite <- Hk2. apply NoDup_unique.
    + intros k. rewrite <- Hk2. apply Hindex.
  - exact Hrow.
  - eapply (Sorted_weaken _ _ (λ row, ∃ k, row = row_of k)); [| |exact Hsorted].
    + intros x y (p & ->) (q & ->) Hle. cbn in Hle.
      do 2 eexists. split_and!; [done..|].
      by apply Is_true_true, Z.leb_le in Hle.
    + apply Forall_forall. exact Hrow.
Qed.

Lemma filter_all {A} (P : A → Prop) `{∀ x, Decision (P x)} (l : list A) :
  Forall P l → filter P l = l.
Proof.
  induction 1 as [|x l Hx Hl IH]; [done|].
  by rewrite filter_cons, decide_True, IH.
Qed.

Lemma filter_none {A} (P : A → Prop) `{∀ x, Decision (P x)} (l : list A) :
  Forall (λ x, ¬ P x) l → filter P l = [].
Proof.
  induction 1 as [|x l Hx Hl IH]; [done|].
  by rewrite filter_cons, decide_False, IH.
Qed.

Lemma explode_job_state_cons (j : Squeue.job) (jobs : list Squeue.job) :
  explode_job_state (j :: jobs)
  = match Squeue.job_state j with
    | [] => [(j, None)]
    | ss => (λ s, (j, Some s)) <$> ss
    end ++ explode_job_state jobs.
Proof. reflexivity. Qed.

(** The exploded frame holds [exploded_rows j] rows for each job [j]. *)
Lemma explode_count (key : Squeue.job → string) (k : string)
    (jobs : list Squeue.job) :
  length (filter (λ r : Squeue.job * option string, key r.1 = k)
            (explode_job_state jobs))
  = sum_list_with exploded_rows (filter (λ j, key j = k) jobs).
Proof.
  induction jobs as [|j jobs IH]; [done|].
  rewrite explode_job_state_cons, filter_app, length_app, IH, filter_cons.
  unfold exploded_rows at 2.
  destruct (decide (key j = k)) as [Hk|Hk].
  - cbn [sum_list_with]. f_equal. unfold exploded_rows.
    destruct (Squeue.job_state j) as [|s ss].
    + rewrite filter_cons, decide_True by done. done.
    + rewrite filter_all.
      * rewrite length_fmap. cbn [length]. lia.
      * apply Forall_fmap, Forall_forall. by intros.
  - rewrite filter_none; [done|].
    destruct (Squeue.job_state j) as [|s ss].
    + by repeat constructor.
    + apply Forall_fmap, Forall_forall. by intros.
Qed.

Lemma elem_of_explode_states (s : option string) (jobs : list Squeue.job) :
  s ∈ (explode_job_state jobs).*2
  ↔ ∃ j, j ∈ jobs
         ∧ match s with
           | None => Squeue.job_state j = []
           | Some st => st ∈ Squeue.job_state j
           end.
Proof.
  induction jobs as [|j jobs IH].
  - split; [intros H; by apply elem_of_nil in H|].
    intros (j & H & _). by apply elem_of_nil in H.
  - rewrite explode_job_state_cons, fmap_app, elem_of_app, IH. split.
    + intros [Hj|(j' & Hin & Hs)].
      * exists j. split; [left|].
        destruct (Squeue.job_state j) as [|s0 ss].
        -- apply list_elem_of_singleton in Hj. by subst s.
        -- rewrite <- list_fmap_compose in Hj.
           apply list_elem_of_fmap in Hj as (st & -> & Hst). done.
      * exists j'. split; [by right | done].
    + intros (j' & [->|Hin]%elem_of_cons & Hs); [left | right; by exists j'].
      destruct (Squeue.job_state j) as [|s0 ss].
      * destruct s; [by apply elem_of_nil in Hs|]. by apply list_elem_of_singleton.
      * destruct s as [st|]; [|done].
        rewrite <- list_fmap_compose. apply list_elem_of_fmap. by exists st.
Qed.

Lemma process_job_summaries_nonempty
    (d : gmap string (list Squeue.job)) (jobs : list Squeue.job) :
  d !! "jobs" = Some jobs →
  jobs ≠ [] →
  process_job_summaries (Some d)
  = (account_summary_df ←
       job_summary "account" Squeue.account (explode_job_state jobs);
     user_summary_df ←
       job_summary "user_name" Squeue.user_name (explode_job_state jobs);
     mret (account_summary_df, user_summary_df)).
Proof.
  intros Hd Hne. destruct (dict_truthy_lookup d _ _ Hd) as [Ht Hc].
  unfold process_job_summaries. rewrite Ht, Hc. cbn [negb orb].
  unfold getitem. rewrite Hd. by destruct jobs.
Qed.

(** C1.  What "Total Jobs" holds.  On every payload with jobs, the "Total
    Jobs" cell of the row of a key, in the by-account and in the by-user
    table, is the number of rows of the exploded frame with that key: each
    job of the key counts once per state it lists (once when it lists
    none), not once per job.  One job of account "acct" and user "user"
    with the two states CANCELLED and COMPLETING gets "Total Jobs" 2 in
    both tables, with 1 under each of its states. *)
Theorem total_jobs_counts_exploded_rows :
  (∀ (d : gmap string (list Squeue.job)) (jobs : list Squeue.job),
     d !! "jobs" = Some jobs →
     jobs ≠ [] →
     ∃ account_summary_df user_summary_df,
       process_job_summaries (Some d)
       = Return (account_summary_df, user_summary_df)
       ∧ (∀ row, row ∈ rows account_summary_df →
            ∃ k, cell 0 row = Str k
                 ∧ cell 1 row
                   = Int (Z.of_nat (sum_list_with exploded_rows
                            (filter (λ j, Squeue.account j = k) jobs))))
       ∧ (∀ row, row ∈ rows user_summary_df →
            ∃ k, cell 0 row = Str k
                 ∧ cell 1 row
                   = Int (Z.of_nat (sum_list_with exploded_rows
                            (filter (λ j, Squeue.user_name j = k) jobs)))))
  ∧ (let jobs := [ mkjob "acct" ["CANCELLED"; "COMPLETING"] "user" 0 0 ] in
     ∃ account_summary_df user_summary_df,
       process_job_summaries (Some {[ "jobs" := jobs ]})
       = Return (account_summary_df, user_summary_df)
       ∧ columns account_summary_df
         = [ "account"; "Total Jobs"; "CANCELLED"; "COMPLETING" ]
       ∧ rows account_summary_df = [ [Str "acct"; Int 2; Int 1; Int 1] ]
       ∧ rows user_summary_df = [ [Str "user"; Int 2; Int 1; Int 1] ]
       ∧ count (λ j, Squeue.account j = "acct") jobs = 1
       ∧ count (λ j, Squeue.user_name j = "user") jobs = 1).
Proof.
  split.
  - intros d jobs Hd Hne.
    rewrite (process_job_summaries_nonempty d jobs Hd Hne).
    destruct (job_summary_spec "account" Squeue.account
                (explode_job_state jobs)) as (ona & ra & -> & _ & _ & _ & Ha & _);
      [done|].
    destruct (job_summary_spec "user_name" Squeue.user_name
                (explode_job_state jobs)) as (onu & ru & -> & _ & _ & _ & Hu & _);
      [done|].
    do 2 eexists. split; [reflexivity|]. cbn [rows]. split.
    + intros row Hrow. destruct (Ha row Hrow) as (k & ->). exists k.
      split; [done|]. cbn [cell nth]. by rewrite explode_count.
    + intros row Hrow. destruct (Hu row Hrow) as (k & ->). exists k.
      split; [done|]. cbn [cell nth]. by rewrite explode_count.
  - do 2 eexists. split; [vm_compute; reflexivity|].
    repeat split; vm_compute; reflexivity.
Qed.

(** C7.  When the squeue payload is [None], has no "jobs" key, or has an
    empty "jobs" list, [process_job_summaries] returns two tables without
    rows, with the columns account (respectively user_name), "Total Jobs",
    RUNNING, PENDING, COMPLETED. *)
Theorem job_summaries_no_jobs
    (squeue_data : option (gmap string (list Squeue.job))) :
  (squeue_data = None
   ∨ ∃ d, squeue_data = Some d
          ∧ (d !! "jobs" = None ∨ d !! "jobs" = Some [])) →
  ∃ account_summary_df user_summary_df,
    process_job_summaries squeue_data
    = Return (account_summary_df, user_summary_df)
    ∧ columns account_summary_df
      = [ "account"; "Total Jobs"; "RUNNING"; "PENDING"; "COMPLETED" ]
    ∧ rows account_summary_df = []
    ∧ columns user_summary_df
      = [ "user_name"; "Total Jobs"; "RUNNING"; "PENDING"; "COMPLETED" ]
    ∧ rows user_summary_df = [].
Proof.
  intros H.
  exists (empty_job_summary "account"), (empty_job_summary "user_name").
  split; [|done].
  destruct H as [->|(d & -> & Hd)]; [done|].
  unfold process_job_summaries, contains, getitem.
  destruct (dict_truthy d); cbn [negb orb]; [|done].
  destruct Hd as [-> | ->]; done.
Qed.

Lemma job_summaries_no_jobs_witness :
  (Some ({[ "jobs" := [] ]} : gmap string (list Squeue.job)) = None
   ∨ ∃ d : gmap string (list Squeue.job),
       Some {[ "jobs" := [] ]} = Some d
       ∧ (d !! "jobs" = None ∨ d !! "jobs" = Some []))
  ∧ ∃ account_summary_df user_summary_df,
      process_job_summaries (Some {[ "jobs" := [] ]})
      = Return (account_summary_df, user_summary_df)
      ∧ rows account_summary_df = [] ∧ rows user_summary_df = [].
Proof.
  assert (H : Some ({[ "jobs" := [] ]} : gmap string (list Squeue.job)) = None
              ∨ ∃ d : gmap string (list Squeue.job),
                  Some {[ "jobs" := [] ]} = Some d
                  ∧ (d !! "jobs" = None ∨ d !! "jobs" = Some [])).
  { right. eexists. split; [reflexivity|]. right. reflexivity. }
  split; [exact H|].
  destruct (job_summaries_no_jobs _ H) as (a & u & H1 & _ & H2 & _ & H3).
  exists a, u. repeat split; assumption.
Defined.

(* ===================================================================== *)
(** ** The column schema of each summary *)
(* ===================================================================== *)

Lemma sort_columns by_ descending df df' :
  Pl.sort by_ descending df = Return df' → columns df' = columns df.
Proof.
  unfold Pl.sort. destruct (column_index by_ (columns df)); [|done].
  intros [= <-]. done.
Qed.



Lemma missing_key_is_None {V} (d : gmap string V) (k : string) :
  d !! k = None → negb (dict_truthy d) || negb (contains k d) = true.
Proof. intros Hd. unfold contains. rewrite Hd. apply orb_true_r. Qed.



(* ===================================================================== *)
(** ** Inputs on which an aggregation raises *)
(* ===================================================================== *)

(** C3.  [process_partition_summary] raises [KeyError] on every non-empty
    object that has no "sinfo" key, such as the object with the one key
    "errors", where [process_partition_list], which tests for the key,
    returns [None]; and the partition and node functions raise
    [ColumnNotFoundError] on an empty record list, where the job functions,
    which test for it, return their empty tables. *)
Theorem aggregation_raises :
  (∀ d : gmap string (list Sinfo.record),
     d ≠ ∅ → d !! "sinfo" = None →
     process_partition_summary (Some d) = Raise (KeyError "sinfo")
     ∧ process_partition_list (Some d) = Return None)
  ∧ process_partition_summary (Some {[ "errors" := [] ]})
    = Raise (KeyError "sinfo")
  ∧ (∃ c, process_partition_summary (Some {[ "sinfo" := [] ]})
          = Raise (ColumnNotFoundError c))
  ∧ (∃ c, process_partition_list (Some {[ "sinfo" := [] ]})
          = Raise (ColumnNotFoundError c))
  ∧ (∃ c, process_node_summary (Some {[ "nodes" := [] ]})
          = Raise (ColumnNotFoundError c))
  ∧ (∃ c, process_node_list (Some {[ "nodes" := [] ]})
          = Raise (ColumnNotFoundError c))
  ∧ returns (process_job_summaries (Some {[ "jobs" := [] ]}))
  ∧ returns (process_pending_job_waiting_times_summary
               (Some {[ "jobs" := [] ]})).
Proof.
  split.
  { intros d Hne Hd. split.
    - unfold process_partition_summary, dict_truthy, getitem.
      rewrite bool_decide_eq_false_2 by done. cbn [negb]. by rewrite Hd.
    - unfold process_partition_list.
      by rewrite (missing_key_is_None d "sinfo" Hd). }
  split; [vm_compute; reflexivity|].
  do 4 (split; [eexists; vm_compute; reflexivity|]).
  split; vm_compute; exact I.
Qed.

(* ===================================================================== *)
(** ** The fetcher *)
(* ===================================================================== *)

Section FetcherFacts.
Variable J : Type.
Variable json_loads : string → option (option J).
Variable str_exn : exn → string.

(** An exception of the [try] block that derives from [Exception] is
    turned into one printed line and [None]. *)
Lemma handled_exception (command : string) (o : outcome)
    (out : list string) (e : exn) :
  get_slurm_data_try J json_loads command o = (out, Raise e) →
  split command ≠ [] →
  is_Exception e = true →
  ∃ line, get_slurm_data J json_loads str_exn command o
          = (out ++ [line], Return None).
Proof.
  intros Htry Hsplit He. unfold get_slurm_data. rewrite Htry.
  destruct e; try discriminate He; cbn [is_Exception]; try by eexists.
  destruct (split command); [done|]. by eexists.
Qed.

(** What [get_slurm_data] does, outcome by outcome. *)
Lemma get_slurm_data_cases (command : string) (o : outcome) :
  split command ≠ [] →
  raises_Exception_only o →
  match decoded_document J json_loads o with
  | Some v => get_slurm_data J json_loads str_exn command o = ([], Return v)
  | None =>
      ∃ line, get_slurm_data J json_loads str_exn command o
              = ([line], Return None)
  end.
Proof.
  intros Hsplit Hexn.
  destruct o as [e|e|c]; cbn [decoded_document].
  - apply (handled_exception command _ [] e); [done | done |].
    apply Hexn. by left.
  - apply (handled_exception command _ [] e); [done | done |].
    apply Hexn. by right.
  - destruct (returncode c =? 0) eqn:Hrc.
    + destruct (stdout_decode c) as [out|] eqn:Hout; cbn.
      * destruct (json_loads (strip out)) as [v|] eqn:Hv.
        -- unfold get_slurm_data, get_slurm_data_try.
           by rewrite Hrc, Hout, Hv.
        -- apply (handled_exception command _ [] JSONDecodeError);
             [|done..].
           unfold get_slurm_data_try. by rewrite Hrc, Hout, Hv.
      * apply (handled_exception command _ [] UnicodeDecodeError);
          [|done..].
        unfold get_slurm_data_try. by rewrite Hrc, Hout.
    + destruct (stderr_decode c) as [err|] eqn:Herr.
      * eexists. unfold get_slurm_data, get_slurm_data_try.
        by rewrite Hrc, Herr.
      * apply (handled_exception command _ [] UnicodeDecodeError);
          [|done..].
        unfold get_slurm_data_try. by rewrite Hrc, Herr.
Qed.

Lemma get_all_slurm_data_returned (run : string → outcome)
    (all_data : gmap string (option J)) :
  (get_all_slurm_data J json_loads str_exn run).2 = Return all_data →
  ∃ r0 r1 r2,
    (get_slurm_data J json_loads str_exn "sinfo --json"
       (run "sinfo --json")).2 = Return r0
    ∧ (get_slurm_data J json_loads str_exn "squeue --json"
         (run "squeue --json")).2 = Return r1
    ∧ (get_slurm_data J json_loads str_exn "scontrol show nodes --json"
         (run "scontrol show nodes --json")).2 = Return r2
    ∧ all_data = {[ "sinfo" := r0; "squeue" := r1; "scontrol" := r2 ]}.
Proof.
  unfold get_all_slurm_data, gather.
  destruct (get_slurm_data _ _ _ "sinfo --json" _) as [o0 [r0|e0]];
    destruct (get_slurm_data _ _ _ "squeue --json" _) as [o1 [r1|e1]];
    destruct (get_slurm_data _ _ _ "scontrol show nodes --json" _)
      as [o2 [r2|e2]]; cbn; intros [= <-] || intros [=].
  by exists r0, r1, r2.
Qed.

End FetcherFacts.



(** The two ways an exception leaves [get_slurm_data]: one that does not
    derive from [Exception], and the [IndexError] of [command.split()[0]]
    in the first [except] clause when the command has no word. *)
Lemma get_slurm_data_escapes (J : Type)
    (json_loads : string → option (option J)) (str_exn : exn → string) :
  (∀ command,
     (get_slurm_data J json_loads str_exn command
        (communicate_raises CancelledError)).2 = Raise CancelledError)
  ∧ (get_slurm_data J json_loads str_exn " "
       (spawn_raises FileNotFoundError)).2 = Raise IndexError.
Proof. split; reflexivity. Qed.

(** C10.  Whenever [get_all_slurm_data] returns, the mapping has exactly
    the keys "sinfo", "squeue" and "scontrol", each bound to the result of
    the corresponding fetch; it has no "current_time" key, and the look-up
    [all_data["current_time"]] of the home view raises [KeyError].  It does
    return when the environment raises only exceptions deriving from
    [Exception]. *)
Theorem get_all_slurm_data_keys (J : Type)
    (json_loads : string → option (option J)) (str_exn : exn → string)
    (run : string → outcome) :
  (∀ all_data,
     (get_all_slurm_data J json_loads str_exn run).2 = Return all_data →
     dom all_data = {[ "sinfo"; "squeue"; "scontrol" ]}
     ∧ Return <$> all_data !! "sinfo"
       = Some (get_slurm_data J json_loads str_exn "sinfo --json"
                 (run "sinfo --json")).2
     ∧ Return <$> all_data !! "squeue"
       = Some (get_slurm_data J json_loads str_exn "squeue --json"
                 (run "squeue --json")).2
     ∧ Return <$> all_data !! "scontrol"
       = Some (get_slurm_data J json_loads str_exn
                 "scontrol show nodes --json"
                 (run "scontrol show nodes --json")).2
     ∧ all_data !! "current_time" = None
     ∧ all_data_current_time J all_data = Raise (KeyError "current_time"))
  ∧ ((∀ command, raises_Exception_only (run command)) →
     ∃ all_data,
       (get_all_slurm_data J json_loads str_exn run).2 = Return all_data).
Proof.
  split.
  - intros all_data Hret.
    apply get_all_slurm_data_returned in Hret
      as (r0 & r1 & r2 & -> & -> & -> & ->).
    split_and!.
    + rewrite !dom_insert_L, ?dom_singleton_L, ?dom_empty_L. set_solver.
    + done.
    + done.
    + done.
    + done.
    + done.
  - intros Hrun.
    assert (Hret : ∀ command, split command ≠ [] →
              ∃ out v, get_slurm_data J json_loads str_exn command (run command)
                       = (out, Return v)).
    { intros command Hsplit.
      pose proof (get_slurm_data_cases J json_loads str_exn command
                    (run command) Hsplit (Hrun command)) as Hc.
      destruct (decoded_document _ _ _) as [v|];
        [|destruct Hc as (line & Hc)]; rewrite Hc; by do 2 eexists. }
    destruct (Hret "sinfo --json") as (o0 & v0 & H0); [by vm_compute|].
    destruct (Hret "squeue --json") as (o1 & v1 & H1); [by vm_compute|].
    destruct (Hret "scontrol show nodes --json") as (o2 & v2 & H2);
      [by vm_compute|].
    unfold get_all_slurm_data, gather. rewrite H0, H1, H2. by eexists.
Qed.

Lemma get_all_slurm_data_keys_witness :
  (∀ command, raises_Exception_only (sample_run command))
  ∧ ∃ all_data,
      (get_all_slurm_data nat sample_loads sample_str_exn sample_run).2
      = Return all_data
      ∧ dom all_data = {[ "sinfo"; "squeue"; "scontrol" ]}
      ∧ all_data !! "current_time" = None.
Proof.
  assert (H : ∀ command, raises_Exception_only (sample_run command)).
  { intros command e. unfold sample_run.
    repeat case_bool_decide; intros [[=]|[=]]; subst; reflexivity. }
  split; [exact H|].
  destruct (get_all_slurm_data_keys nat sample_loads sample_str_exn sample_run)
    as [Hkeys Hret].
  destruct (Hret H) as (all_data & Hall).
  exists all_data. split; [exact Hall|].
  destruct (Hkeys all_data Hall) as (Hdom & _ & _ & _ & Hct & _).
  split; assumption.
Defined.

(* ===================================================================== *)
(** ** More on the fetchers *)
(* ===================================================================== *)



(** X2.  Two ways an exception leaves [get_slurm_data]: an exception of
    the process that does not derive from [Exception] passes through
    unchanged, and [FileNotFoundError] for a command without a word becomes
    the [IndexError] of [command.split()[0]].  Nothing is printed. *)
Theorem get_slurm_data_propagates (J : Type)
    (json_loads : string → option (option J)) (str_exn : exn → string)
    (command : string) (o : outcome) (e : exn) :
  o = spawn_raises e ∨ o = communicate_raises e →
  (is_Exception e = false →
   get_slurm_data J json_loads str_exn command o = ([], Raise e))
  ∧ (e = FileNotFoundError → split command = [] →
     get_slurm_data J json_loads str_exn command o = ([], Raise IndexError)).
Proof.
  intros Ho. split.
  - intros He. destruct Ho as [-> | ->]; by destruct e.
  - intros -> Hsplit. unfold get_slurm_data.
    destruct Ho as [-> | ->]; cbn; by rewrite Hsplit.
Qed.

Lemma get_slurm_data_propagates_witness :
  (communicate_raises CancelledError = spawn_raises CancelledError
   ∨ communicate_raises CancelledError = communicate_raises CancelledError)
  ∧ get_slurm_data nat sample_loads sample_str_exn "squeue --json"
      (communicate_raises CancelledError) = ([], Raise CancelledError).
Proof.
  assert (H : communicate_raises CancelledError = spawn_raises CancelledError
              ∨ communicate_raises CancelledError
                = communicate_raises CancelledError) by (by right).
  split; [exact H|].
  apply (get_slurm_data_propagates nat sample_loads sample_str_exn
           "squeue --json" _ CancelledError H).
  reflexivity.
Defined.








(* ===================================================================== *)
(** ** The node list and the partition list *)
(* ===================================================================== *)











(* ===================================================================== *)
(** ** More on the job summaries *)
(* ===================================================================== *)

Lemma sum_list_with_add {A} (f g : A → nat) (l : list A) :
  sum_list_with (λ x, f x + g x)%nat l
  = (sum_list_with f l + sum_list_with g l)%nat.
Proof. induction l as [|x l IH]; cbn; [done | rewrite IH; lia]. Qed.

Lemma sum_list_with_ext {A} (f g : A → nat) (l : list A) :
  (∀ x, f x = g x) → sum_list_with f l = sum_list_with g l.
Proof. intros E. induction l as [|x l IH]; cbn; [done | by rewrite E, IH]. Qed.

Lemma sum_list_with_zero {A} (l : list A) :
  sum_list_with (λ _, 0%nat) l = 0%nat.
Proof. induction l as [|x l IH]; cbn; done. Qed.

Lemma sum_list_with_indicator {B} `{EqDecision B} (y : B) (l : list B) :
  NoDup l →
  sum_list_with (λ b, if decide (y = b) then 1 else 0)%nat l
  = if decide (y ∈ l) then 1%nat else 0%nat.
Proof.
  induction 1 as [|b l Hb Hnd IH]; cbn [sum_list_with].
  - by rewrite decide_False by apply not_elem_of_nil.
  - rewrite IH. destruct (decide (y = b)) as [->|Hne].
    + rewrite (decide_False (P := b ∈ l)) by done.
      rewrite decide_True by left. done.
    + destruct (decide (y ∈ l)) as [Hin|Hin].
      * rewrite decide_True by (by right). done.
      * rewrite decide_False; [done|]. by intros [?|?]%elem_of_cons.
Qed.

(** Rows that satisfy [P], counted class by class of [g]. *)
Lemma length_filter_classes {A B} `{EqDecision B}
    (P : A → Prop) `{∀ x, Decision (P x)} (g : A → B)
    (l : list B) (df : list A) :
  NoDup l →
  (∀ x, x ∈ df → P x → g x ∈ l) →
  sum_list_with (λ b, length (filter (λ x, P x ∧ g x = b) df)) l
  = length (filter P df).
Proof.
  intros Hnd. induction df as [|x df IH]; intros Hcover.
  - cbn. apply sum_list_with_zero.
  - rewrite filter_cons.
    transitivity
      (sum_list_with (λ b, (if decide (P x ∧ g x = b) then 1 else 0)
                           + length (filter (λ x, P x ∧ g x = b) df))%nat l).
    { apply sum_list_with_ext. intros b.
      rewrite filter_cons. by destruct (decide (P x ∧ g x = b)). }
    rewrite sum_list_with_add, IH
      by (intros y Hy; apply Hcover; by right).
    destruct (decide (P x)) as [HP|HP].
    + transitivity
        (sum_list_with (λ b, if decide (g x = b) then 1 else 0)%nat l
         + length (filter P df))%nat.
      { f_equal. apply sum_list_with_ext. intros b.
        destruct (decide (g x = b)), (decide (P x ∧ g x = b)); tauto || done. }
      rewrite sum_list_with_indicator by done.
      rewrite decide_True by (apply Hcover; [left | done]). done.
    + transitivity (sum_list_with (λ _ : B, 0%nat) l + length (filter P df))%nat.
      { f_equal. apply sum_list_with_ext. intros b.
        rewrite decide_False; tauto || done. }
      by rewrite sum_list_with_zero.
Qed.

Lemma sum_of_nat {A} (c : A → nat) (l : list A) :
  Pl.sum ((λ s, Z.of_nat (c s)) <$> l) = Z.of_nat (sum_list_with c l).
Proof.
  unfold Pl.sum. induction l as [|x l IH]; cbn; [done|]. rewrite IH. lia.
Qed.

Lemma filter_pair_eq {A B C} `{EqDecision B} `{EqDecision C}
    (f : A → B) (g : A → C) (b : B) (c : C) (l : list A) :
  filter (λ x, (f x, g x) = (b, c)) l = filter (λ x, f x = b ∧ g x = c) l.
Proof. apply list_filter_iff. intros x. split; [by intros [= -> ->] | by intros [-> ->]]. Qed.

(** The exploded frame holds [state_count s j] rows of state [s] for each
    job [j]. *)
Lemma explode_state_count (key : Squeue.job → string) (k : string)
    (s : option string) (jobs : list Squeue.job) :
  length (filter (λ r : Squeue.job * option string, key r.1 = k ∧ r.2 = s)
            (explode_job_state jobs))
  = sum_list_with (state_count s) (filter (λ j, key j = k) jobs).
Proof.
  induction jobs as [|j jobs IH]; [done|].
  rewrite explode_job_state_cons, filter_app, length_app, IH, filter_cons.
  destruct (decide (key j = k)) as [Hk|Hk].
  - cbn [sum_list_with]. f_equal. unfold state_count.
    destruct (Squeue.job_state j) as [|s0 ss] eqn:Ej.
    + rewrite filter_cons. cbn [fst snd].
      destruct s as [st|].
      * rewrite decide_False by (intros [_ [=]]). done.
      * rewrite decide_True by done. by rewrite decide_True.
    + destruct s as [st|].
      * generalize (s0 :: ss). intros l. induction l as [|x l IHl]; [done|].
        rewrite fmap_cons, !filter_cons. cbn [fst snd].
        destruct (decide (x = st)) as [->|Hne].
        -- rewrite decide_True by done. cbn [length]. by rewrite IHl.
        -- rewrite decide_False by (intros [_ [=]]; done). done.
      * rewrite decide_False by done.
        rewrite filter_none; [done|].
        apply Forall_fmap, Forall_forall. intros x _ [_ [=]].
  - rewrite filter_none; [done|].
    destruct (Squeue.job_state j) as [|s0 ss].
    + repeat constructor. cbn. tauto.
    + apply Forall_fmap, Forall_forall. intros x _. cbn. tauto.
Qed.

(** X8.  In every row of both job summaries "Total Jobs" is the sum of
    the row's state columns. *)
Theorem total_jobs_is_row_sum
    (d : gmap string (list Squeue.job)) (jobs : list Squeue.job) :
  d !! "jobs" = Some jobs →
  jobs ≠ [] →
  ∃ account_summary_df user_summary_df,
    process_job_summaries (Some d)
    = Return (account_summary_df, user_summary_df)
    ∧ (∀ row, row ∈ Pl.rows account_summary_df →
         cell 1 row = Int (Pl.sum (int_of <$> drop 2 row)))
    ∧ (∀ row, row ∈ Pl.rows user_summary_df →
         cell 1 row = Int (Pl.sum (int_of <$> drop 2 row))).
Proof.
  intros Hd Hne.
  rewrite (process_job_summaries_nonempty d jobs Hd Hne).
  assert (Hsum : ∀ key on (k : string),
            NoDup on →
            (∀ s, s ∈ on ↔ s ∈ (explode_job_state jobs).*2) →
            Pl.sum (int_of <$> ((λ s, Int (Z.of_nat (length
                      (filter (λ r : Squeue.job * option string,
                                 (key r.1, r.2) = (k, s))
                         (explode_job_state jobs))))) <$> on))
            = Z.of_nat (length (filter (λ r : Squeue.job * option string,
                                          key r.1 = k)
                                  (explode_job_state jobs)))).
  { intros key on k Hnd Hon. rewrite <- list_fmap_compose.
    rewrite <- (length_filter_classes _ snd on) ; [|done|].
    - rewrite <- sum_of_nat. f_equal. apply list_fmap_ext. intros _ s _. cbn.
      by rewrite (filter_pair_eq (λ r, key r.1) snd).
    - intros r Hr _. apply Hon. apply list_elem_of_fmap. by exists r. }
  destruct (job_summary_spec "account" Squeue.account
              (explode_job_state jobs))
    as (ona & ra & -> & Hnda & Hona & _ & Ha & _); [done|].
  destruct (job_summary_spec "user_name" Squeue.user_name
              (explode_job_state jobs))
    as (onu & ru & -> & Hndu & Honu & _ & Hu & _); [done|].
  do 2 eexists. split; [reflexivity|]. cbn [rows]. split.
  - intros row Hrow. destruct (Ha row Hrow) as (k & ->).
    cbn [cell nth drop]. f_equal. symmetry.
    exact (Hsum Squeue.account ona k Hnda Hona).
  - intros row Hrow. destruct (Hu row Hrow) as (k & ->).
    cbn [cell nth drop]. f_equal. symmetry.
    exact (Hsum Squeue.user_name onu k Hndu Honu).
Qed.

Lemma total_jobs_is_row_sum_witness :
  ∃ jobs, TWO_STATE_JOB !! "jobs" = Some jobs
    ∧ jobs ≠ []
    ∧ ∃ account_summary_df user_summary_df,
        process_job_summaries (Some TWO_STATE_JOB)
        = Return (account_summary_df, user_summary_df)
        ∧ ∀ row, row ∈ Pl.rows account_summary_df →
                 cell 1 row = Int (Pl.sum (int_of <$> drop 2 row)).
Proof.
  eexists. split; [reflexivity|]. split; [discriminate|].
  destruct (total_jobs_is_row_sum
              TWO_STATE_JOB
              [ mkjob "a" ["RUNNING"; "COMPLETING"] "u" 0 0 ]
              eq_refl ltac:(discriminate)) as (a & u & H1 & H2 & _).
  exists a, u. split; assumption.
Defined.

(** X9.  In both job summaries the cell of a row under a state column is
    the number of times the jobs of the row's key list that state (for the
    "null" column: the number of its jobs that list no state). *)
Theorem state_columns_count_pairs
    (d : gmap string (list Squeue.job)) (jobs : list Squeue.job) :
  d !! "jobs" = Some jobs →
  jobs ≠ [] →
  ∃ account_summary_df user_summary_df states_a states_u,
    process_job_summaries (Some d)
    = Return (account_summary_df, user_summary_df)
    ∧ Pl.columns account_summary_df
      = "account" :: "Total Jobs" :: (state_column <$> states_a)
    ∧ Pl.columns user_summary_df
      = "user_name" :: "Total Jobs" :: (state_column <$> states_u)
    ∧ (∀ row, row ∈ Pl.rows account_summary_df →
         ∃ k, cell 0 row = Str k
              ∧ drop 2 row
                = (λ s, Int (Z.of_nat (sum_list_with (state_count s)
                          (filter (λ j, Squeue.account j = k) jobs))))
                    <$> states_a)
    ∧ (∀ row, row ∈ Pl.rows user_summary_df →
         ∃ k, cell 0 row = Str k
              ∧ drop 2 row
                = (λ s, Int (Z.of_nat (sum_list_with (state_count s)
                          (filter (λ j, Squeue.user_name j = k) jobs))))
                    <$> states_u).
Proof.
  intros Hd Hne.
  rewrite (process_job_summaries_nonempty d jobs Hd Hne).
  destruct (job_summary_spec "account" Squeue.account
              (explode_job_state jobs))
    as (ona & ra & -> & _ & _ & _ & Ha & _); [done|].
  destruct (job_summary_spec "user_name" Squeue.user_name
              (explode_job_state jobs))
    as (onu & ru & -> & _ & _ & _ & Hu & _); [done|].
  do 2 eexists. exists ona, onu. split; [reflexivity|].
  unfold Pl.columns. cbn [schema rows fmap list_fmap fst].
  rewrite <- !list_fmap_compose. split_and!; [done | done | |].
  - intros row Hrow. destruct (Ha row Hrow) as (k & ->). exists k.
    split; [done|]. cbn [drop]. apply list_fmap_ext. intros _ s _.
    by rewrite (filter_pair_eq (λ r, Squeue.account r.1) snd),
      explode_state_count.
  - intros row Hrow. destruct (Hu row Hrow) as (k & ->). exists k.
    split; [done|]. cbn [drop]. apply list_fmap_ext. intros _ s _.
    by rewrite (filter_pair_eq (λ r, Squeue.user_name r.1) snd),
      explode_state_count.
Qed.

Lemma state_columns_count_pairs_witness :
  ∃ jobs, TWO_STATE_JOB !! "jobs" = Some jobs
    ∧ jobs ≠ []
    ∧ ∃ account_summary_df user_summary_df states_a,
        process_job_summaries (Some TWO_STATE_JOB)
        = Return (account_summary_df, user_summary_df)
        ∧ Pl.columns account_summary_df
          = "account" :: "Total Jobs" :: (state_column <$> states_a).
Proof.
  eexists. split; [reflexivity|]. split; [discriminate|].
  destruct (state_columns_count_pairs
              TWO_STATE_JOB
              [ mkjob "a" ["RUNNING"; "COMPLETING"] "u" 0 0 ]
              eq_refl ltac:(discriminate))
    as (a & u & sa & su & H1 & H2 & _).
  exists a, u, sa. split; assumption.
Defined.



(* ===================================================================== *)
(** ** More on the node summary *)
(* ===================================================================== *)



(* ===================================================================== *)
(** ** Searching a list view *)
(* ===================================================================== *)





(** X13.  A refresh of the node screen whose fetch yields no document
    drops the cached list and leaves the table as it was; from then on a
    change of the search input no longer changes the table. *)
Theorem failed_refresh_disables_search (str_exn : exn → string)
    (json_loads : string → option (option (gmap string (list Scontrol.node))))
    (o : outcome) (scr : node_screen) :
  raises_Exception_only o →
  default None (decoded_document _ json_loads o) = None →
  let scr' := {| node_list := None; search_value := search_value scr;
                 node_list_table := node_list_table scr |} in
  (∃ out, update_nodes str_exn json_loads o scr = (out, scr', Return ()))
  ∧ ∀ values,
      node_list_table (foldl (λ s v, (on_input_changed v s).1) scr' values)
      = node_list_table scr.
Proof.
  intros Hexn Hdoc scr'. split.
  - pose proof (get_slurm_data_cases _ json_loads str_exn
                  "scontrol show nodes --json" o) as Hc.
    unfold update_nodes.
    destruct (decoded_document _ json_loads o) as [doc|].
    + cbn in Hdoc. subst doc. rewrite Hc; [|by vm_compute|done].
      by eexists.
    + destruct Hc as (line & ->); [by vm_compute|done|]. by eexists.
  - intros values.
    assert (H : ∀ s, node_list s = None →
              node_list_table (foldl (λ s v, (on_input_changed v s).1) s values)
              = node_list_table s).
    { induction values as [|v values IH]; intros s Hs; [done|].
      cbn [foldl]. rewrite IH.
      - unfold on_input_changed. by rewrite Hs.
      - unfold on_input_changed. by rewrite Hs. }
    by apply (H scr').
Qed.

Lemma failed_refresh_disables_search_witness :
  raises_Exception_only (spawn_raises FileNotFoundError)
  ∧ default None (decoded_document _ (λ _, None)
                    (spawn_raises FileNotFoundError))
    = (None : option (gmap string (list Scontrol.node)))
  ∧ ∃ out,
      update_nodes sample_str_exn (λ _, None)
        (spawn_raises FileNotFoundError)
        {| node_list := None; search_value := "n1";
           node_list_table := Tx.empty |}
      = (out, {| node_list := None; search_value := "n1";
                 node_list_table := Tx.empty |}, Return ()).
Proof.
  assert (H1 : raises_Exception_only (spawn_raises FileNotFoundError)).
  { intros e [[= <-]|[=]]. reflexivity. }
  split; [exact H1|]. split; [reflexivity|].
  destruct (failed_refresh_disables_search sample_str_exn (λ _, None)
              (spawn_raises FileNotFoundError)
              {| node_list := None; search_value := "n1";
                 node_list_table := Tx.empty |} H1 eq_refl) as [H _].
  exact H.
Defined.

(* ===================================================================== *)
(** ** The home view *)
(* ===================================================================== *)

Lemma process_job_summaries_returns
    (squeue_data : option (gmap string (list Squeue.job))) :
  ∃ account_summary_df user_summary_df,
    process_job_summaries squeue_data
    = Return (account_summary_df, user_summary_df).
Proof.
  destruct squeue_data as [d|]; [|by do 2 eexists].
  unfold process_job_summaries, contains, getitem.
  destruct (dict_truthy d); cbn [negb orb]; [|by do 2 eexists].
  destruct (d !! "jobs") as [jobs|] eqn:Hd; cbn [negb]; [|by do 2 eexists].
  destruct jobs as [|j jobs]; [by do 2 eexists|].
  cbn [mbind result_bind bind list_truthy negb].
  destruct (job_summary_spec "account" Squeue.account
              (explode_job_state (j :: jobs))) as (ona & ra & -> & _); [done|].
  destruct (job_summary_spec "user_name" Squeue.user_name
              (explode_job_state (j :: jobs))) as (onu & ru & -> & _); [done|].
  by do 2 eexists.
Qed.

Lemma job_summaries_empty_rows
    (squeue_data : option (gmap string (list Squeue.job))) :
  jobs_of squeue_data = [] →
  process_job_summaries squeue_data
  = Return (empty_job_summary "account", empty_job_summary "user_name")
  ∧ Pl.rows (empty_job_summary "account") = [].
Proof.
  intros Hjobs. split; [|done].
  destruct squeue_data as [d|]; [|done]. cbn in Hjobs.
  unfold process_job_summaries, contains, getitem.
  destruct (dict_truthy d); cbn [negb orb]; [|done].
  destruct (d !! "jobs") as [jobs|]; [|done].
  cbn in Hjobs. by subst jobs.
Qed.

Lemma select_sum_column_present (name : string) (df : DataFrame) :
  name ∈ Pl.columns df → ∃ z, select_sum_column name df = Return z.
Proof.
  intros Hin. unfold select_sum_column, column_index.
  destruct (list_find (λ c, c = name) (Pl.columns df)) as [[i c]|] eqn:E.
  - by eexists.
  - apply list_find_None in E. rewrite Forall_forall in E.
    by destruct (E name Hin).
Qed.

Lemma sum_if_present_returns (name : string) (df : DataFrame) :
  ∃ z, sum_if_present name df = Return z.
Proof.
  unfold sum_if_present. case_bool_decide as Hin; [|by eexists].
  by apply select_sum_column_present.
Qed.





Lemma same_columns_refl (h : home) : same_columns h h.
Proof. by repeat split. Qed.

Lemma same_columns_trans (h1 h2 h3 : home) :
  same_columns h1 h2 → same_columns h2 h3 → same_columns h1 h3.
Proof.
  intros (A1 & A2 & A3 & A4 & A5) (B1 & B2 & B3 & B4 & B5).
  repeat split; congruence.
Qed.

Lemma keeps_columns_bind {A B} (m : act A) (k : A → act B) :
  keeps_columns m → (∀ a, keeps_columns (k a)) →
  keeps_columns (act_bind m k).
Proof.
  intros Hm Hk h. unfold act_bind. specialize (Hm h).
  destruct (m h) as [h' [a|e]]; cbn in Hm; [|done].
  eapply same_columns_trans; [exact Hm | apply Hk].
Qed.

Lemma keeps_columns_lift {A} (r : result A) : keeps_columns (lift r).
Proof. intros h. apply same_columns_refl. Qed.

Lemma keeps_columns_ret {A} (a : A) : keeps_columns (act_ret a).
Proof. intros h. apply same_columns_refl. Qed.

Lemma keeps_columns_replace_rows (rs : list (list value)) :
  keeps_columns (on_partition_table (replace_rows rs))
  ∧ keeps_columns (on_node_table (replace_rows rs))
  ∧ keeps_columns (on_job_table (replace_rows rs))
  ∧ keeps_columns (on_user_job_table (replace_rows rs))
  ∧ keeps_columns (on_account_job_table (replace_rows rs)).
Proof. repeat split. Qed.

(** X16.  [update_data] never changes the columns of a table: on every
    input, whether it returns or raises, the five tables have the columns
    they had before. *)
Theorem update_data_keeps_columns
    (sinfo_data : option (gmap string (list Sinfo.record)))
    (squeue_data : option (gmap string (list Squeue.job)))
    (scontrol_data : option (gmap string (list Scontrol.node)))
    (now : string) (h : home) :
  same_columns h
    (update_data sinfo_data squeue_data scontrol_data now h).1.
Proof.
  revert h. change (keeps_columns
    (update_data sinfo_data squeue_data scontrol_data now)).
  unfold update_data.
  repeat first
    [ apply keeps_columns_bind; [|intros ?]
    | apply keeps_columns_lift
    | apply keeps_columns_ret
    | apply keeps_columns_replace_rows
    | match goal with
      | |- keeps_columns (match ?x with _ => _ end) => destruct x
      end ].
  intros h. by repeat split.
Qed.

(** The rows of a job summary, key by key. *)
Lemma rows_by_key (f : string → list value) (rows' : list (list value))
    (keys : list string) :
  (∀ k, cell 0 (f k) = Str k) →
  cell 0 <$> rows' = Str <$> keys →
  (∀ row, row ∈ rows' → ∃ k, row = f k) →
  rows' = f <$> keys.
Proof.
  intros Hf. revert keys. induction rows' as [|r rs IH]; intros keys Hk Hr.
  - by destruct keys.
  - destruct keys as [|k0 ks]; [done|]. rewrite !fmap_cons in Hk.
    injection Hk as Hk0 Hks. rewrite fmap_cons. f_equal.
    + destruct (Hr r) as (k & ->); [left|]. rewrite Hf in Hk0.
      by injection Hk0 as ->.
    + apply IH; [done|]. intros row Hrow. apply Hr. by right.
Qed.

Lemma cell_SS (a b : value) (l : list value) (j : nat) :
  cell (S (S j)) (a :: b :: l) = default Null (l !! j).
Proof. unfold cell. change (nth j l Null = default Null (l !! j)). apply nth_lookup. Qed.

(** The sum of a state column of a job summary is the number of exploded
    rows with that state. *)
Lemma sum_state_column (key_col : string) (key : Squeue.job → string)
    (df : list (Squeue.job * option string)) (st : string) (a : DataFrame) :
  key_col ≠ "Total Jobs" →
  st ≠ key_col → st ≠ "Total Jobs" → st ≠ "null" →
  job_summary key_col key df = Return a →
  sum_if_present st a
  = Return (Z.of_nat (length (filter (λ r, r.2 = Some st) df))).
Proof.
  intros Hcol H1 H2 H3 Ha.
  destruct (job_summary_spec key_col key df Hcol)
    as (on & rows' & Hret & Hnd & Hon & (keys & Hk1 & Hk2 & Hk3) & Hrows & _).
  rewrite Hret in Ha. injection Ha as <-.
  set (row_of := λ k : string,
         Str k
         :: Int (Z.of_nat (length (filter (λ r, key r.1 = k) df)))
         :: ((λ s, Int (Z.of_nat (length
                (filter (λ r, (key r.1, r.2) = (k, s)) df)))) <$> on)).
  assert (Hrows' : rows' = row_of <$> keys)
    by (by apply rows_by_key).
  assert (Hstate : ∀ s, state_column s = st → s = Some st).
  { intros [x|]; cbn; [by intros -> | by intros <-]. }
  unfold sum_if_present, select_sum_column, column_index, Pl.columns.
  cbn [schema rows fmap list_fmap fst].
  rewrite <- list_fmap_compose.
  change (fst ∘ (λ s : option string, (state_column s, UInt32)))
    with state_column.
  case_bool_decide as Hin.
  - destruct (list_find (λ c, c = st)
                (key_col :: "Total Jobs" :: (state_column <$> on)))
      as [[i c]|] eqn:E.
    2: { apply list_find_None in E. rewrite Forall_forall in E.
         by destruct (E st Hin). }
    apply list_find_Some in E as (Hi & -> & _).
    destruct i as [|[|j]]; [by injection Hi as <- | by injection Hi as <- |].
    change ((state_column <$> on) !! j = Some st) in Hi.
    rewrite list_lookup_fmap in Hi.
    destruct (on !! j) as [s|] eqn:Hj; [|done].
    injection Hi as Hs. apply Hstate in Hs. subst s.
    cbn [fmap option_fmap option_map]. f_equal.
    rewrite Hrows', <- list_fmap_compose.
    rewrite <- (length_filter_classes (λ r, r.2 = Some st)
                 (λ r, key r.1) keys df Hk2).
    2: { intros r Hr _. apply Hk3, list_elem_of_fmap. by exists r. }
    rewrite <- sum_of_nat. f_equal. apply list_fmap_ext. intros _ k _.
    unfold compose, row_of. cbn [fst].
    rewrite cell_SS, list_lookup_fmap, Hj. cbn. do 2 f_equal.
    apply list_filter_iff. intros r.
    split; [intros [= ? ?]; by split | intros [? ?]; by f_equal].
  - rewrite filter_none; [done|].
    apply Forall_forall. intros r Hr Hst. apply Hin.
    do 2 right. apply list_elem_of_fmap. exists (Some st). split; [done|].
    apply Hon, list_elem_of_fmap. by exists r.
Qed.

Lemma explode_state_total (s : option string) (jobs : list Squeue.job) :
  length (filter (λ r : Squeue.job * option string, r.2 = s)
            (explode_job_state jobs))
  = sum_list_with (state_count s) jobs.
Proof.
  pose proof (explode_state_count (λ _, "") "" s jobs) as H.
  rewrite (filter_all (λ _, "" = "")) in H by (apply Forall_forall; done).
  rewrite <- H. f_equal. apply list_filter_iff. intros r. tauto.
Qed.

(** X17.  The "Running Jobs" and "Pending Jobs" values [update_data]
    computes from the by-account summary are the numbers of times the jobs
    of the payload list the state RUNNING, respectively PENDING; they are 0
    when the payload has no jobs. *)
Theorem running_and_pending_totals
    (squeue_data : option (gmap string (list Squeue.job))) :
  ∃ account_summary user_summary,
    process_job_summaries squeue_data
    = Return (account_summary, user_summary)
    ∧ sum_if_present "RUNNING" account_summary
      = Return (Z.of_nat (sum_list_with (state_count (Some "RUNNING"))
                            (jobs_of squeue_data)))
    ∧ sum_if_present "PENDING" account_summary
      = Return (Z.of_nat (sum_list_with (state_count (Some "PENDING"))
                            (jobs_of squeue_data))).
Proof.
  assert (Hempty : ∃ account_summary user_summary,
            Return (empty_job_summary "account",
                    empty_job_summary "user_name")
            = Return (account_summary, user_summary)
            ∧ sum_if_present "RUNNING" account_summary = Return 0
            ∧ sum_if_present "PENDING" account_summary = Return 0).
  { do 2 eexists. split; [reflexivity|]. split; vm_compute; reflexivity. }
  destruct squeue_data as [d|]; [|exact Hempty].
  unfold process_job_summaries, contains, getitem, jobs_of, dict_truthy.
  case_bool_decide as Hd; cbn [negb orb].
  { subst d. rewrite lookup_empty. exact Hempty. }
  destruct (d !! "jobs") as [jobs|]; cbn [negb default]; [|exact Hempty].
  destruct jobs as [|j jobs]; [exact Hempty|].
  cbn [mbind result_bind bind list_truthy negb].
  destruct (job_summary "account" Squeue.account
              (explode_job_state (j :: jobs))) as [a|e] eqn:Ea.
  2: { destruct (job_summary_spec "account" Squeue.account
                   (explode_job_state (j :: jobs))) as (? & ? & Hr & _);
         [done | congruence]. }
  destruct (job_summary_spec "user_name" Squeue.user_name
              (explode_job_state (j :: jobs))) as (onu & ru & -> & _); [done|].
  do 2 eexists. split; [reflexivity|].
  rewrite <- !explode_state_total.
  split; apply (sum_state_column "account" Squeue.account); done.
Qed.

(** What a refresh that returns leaves in the two job tables. *)
Lemma update_data_job_tables
    (sinfo_data : option (gmap string (list Sinfo.record)))
    (squeue_data : option (gmap string (list Squeue.job)))
    (scontrol_data : option (gmap string (list Scontrol.node)))
    (now : string) (h h' : home) :
  update_data sinfo_data squeue_data scontrol_data now h = (h', Return ()) →
  ∃ account_summary user_summary,
    process_job_summaries squeue_data
    = Return (account_summary, user_summary)
    ∧ account_job_summary_table h'
      = {| Tx.columns := Tx.columns (account_job_summary_table h);
           Tx.rows := Pl.rows account_summary |}
    ∧ user_job_summary_table h'
      = {| Tx.columns := Tx.columns (user_job_summary_table h);
           Tx.rows := Pl.rows user_summary |}.
Proof.
  destruct (process_job_summaries_returns squeue_data) as (a & u & Hj).
  destruct (sum_if_present_returns "RUNNING" a) as (r & Hr).
  destruct (sum_if_present_returns "PENDING" a) as (p & Hpd).
  unfold update_data, act_bind, lift.
  destruct (process_partition_summary sinfo_data) as [ps|e]; [|done].
  destruct (process_node_summary scontrol_data) as [ns|e];
    [|destruct ps; done].
  rewrite Hj. cbn [fst snd]. rewrite Hr, Hpd.
  intros H. exists a, u. split; [done|].
  destruct ps, ns; injection H as <-; done.
Qed.

(** X18.  The headers and the rows of the job tables.  When [on_mount]
    returns, it has given the by-account and the by-user table eleven
    headers each -- the key, "Total Jobs" and nine state names -- whatever
    the payload; the rows its refresh then puts in the by-account table
    have two cells plus one per state that occurs among the jobs of the
    payload, so they have as many cells as there are headers only when
    nine different states occur. *)
Theorem on_mount_headers_and_rows
    (sinfo_data : option (gmap string (list Sinfo.record)))
    (squeue_data : option (gmap string (list Squeue.job)))
    (scontrol_data : option (gmap string (list Scontrol.node)))
    (sinfo_data' : option (gmap string (list Sinfo.record)))
    (squeue_data' : option (gmap string (list Squeue.job)))
    (scontrol_data' : option (gmap string (list Scontrol.node)))
    (now : string) (h h' : home) :
  on_mount sinfo_data squeue_data scontrol_data
    sinfo_data' squeue_data' scontrol_data' now h = (h', Return ()) →
  Tx.columns (account_job_summary_table h')
  = Tx.columns (account_job_summary_table h) ++ job_table_headers "account"
  ∧ Tx.columns (user_job_summary_table h')
    = Tx.columns (user_job_summary_table h) ++ job_table_headers "user_name"
  ∧ length (job_table_headers "account") = 11%nat
  ∧ (jobs_of squeue_data' = [] →
     Tx.rows (account_job_summary_table h') = [])
  ∧ (jobs_of squeue_data' ≠ [] →
     ∃ states,
       NoDup states
       ∧ (∀ s, s ∈ states
               ↔ ∃ j, j ∈ jobs_of squeue_data'
                      ∧ match s with
                        | None => Squeue.job_state j = []
                        | Some st => st ∈ Squeue.job_state j
                        end)
       ∧ ∀ row, row ∈ Tx.rows (account_job_summary_table h') →
                length row = (2 + length states)%nat).
Proof.
  unfold on_mount, act_bind at 1 2 3 4 5 6 7 8, lift.
  destruct (process_partition_summary sinfo_data) as [ps|e]; [|done].
  set (h1 := (match ps with
              | Some df => on_partition_table (Tx.add_columns (Pl.columns df))
              | None => act_ret ()
              end h).1).
  assert (Hh1 : match ps with
                | Some df => on_partition_table (Tx.add_columns (Pl.columns df))
                | None => act_ret ()
                end h = (h1, Return ())) by (by destruct ps).
  rewrite Hh1.
  assert (Ha1 : account_job_summary_table h1 = account_job_summary_table h
                ∧ user_job_summary_table h1 = user_job_summary_table h)
    by (by destruct ps).
  clearbody h1. clear Hh1.
  destruct (process_node_summary scontrol_data) as [ns|e]; [|done].
  set (h2 := (match ns with
              | Some df => on_node_table (Tx.add_columns (Pl.columns df))
              | None => act_ret ()
              end h1).1).
  assert (Hh2 : match ns with
                | Some df => on_node_table (Tx.add_columns (Pl.columns df))
                | None => act_ret ()
                end h1 = (h2, Return ())) by (by destruct ns).
  rewrite Hh2.
  assert (Ha2 : account_job_summary_table h2 = account_job_summary_table h
                ∧ user_job_summary_table h2 = user_job_summary_table h).
  { destruct Ha1 as [<- <-]. by destruct ns. }
  clearbody h2. clear Hh2 Ha1.
  cbn [on_job_table].
  destruct (process_job_summaries_returns squeue_data) as (a0 & u0 & ->).
  cbn [on_account_job_table on_user_job_table account_job_summary_table].
  intros Hup.
  apply update_data_job_tables in Hup as (a & u & Hj & Hacc & Husr).
  cbn [account_job_summary_table user_job_summary_table] in Hacc, Husr.
  rewrite Hacc, Husr. cbn [Tx.columns Tx.rows Tx.add_columns].
  destruct Ha2 as [-> ->].
  split_and!; [done | done | done | |].
  - intros Hjobs.
    destruct (job_summaries_empty_rows squeue_data' Hjobs) as [Ha _].
    rewrite Hj in Ha. by injection Ha as -> _.
  - intros Hjobs.
    destruct squeue_data' as [d|]; [|done]. cbn [jobs_of] in *.
    destruct (d !! "jobs") as [jobs|] eqn:Hd; [|done]. cbn [default] in *.
    rewrite (process_job_summaries_nonempty d jobs Hd Hjobs) in Hj.
    destruct (job_summary_spec "account" Squeue.account
                (explode_job_state jobs))
      as (ona & ra & Ea & Hnd & Hon & _ & Hrows & _); [done|].
    destruct (job_summary_spec "user_name" Squeue.user_name
                (explode_job_state jobs)) as (onu & ru & Eu & _); [done|].
    rewrite Ea, Eu in Hj. injection Hj as <- _.
    exists ona. split_and!; [done | |].
    + intros s. rewrite Hon. apply elem_of_explode_states.
    + intros row Hrow. destruct (Hrows row Hrow) as (k & ->).
      cbn [length]. by rewrite length_fmap.
Qed.

Lemma on_mount_headers_and_rows_witness :
  (∃ h', on_mount None None None None (Some TWO_STATE_JOB) None "now"
           fresh_home = (h', Return ())
         ∧ Tx.columns (account_job_summary_table h')
           = job_table_headers "account"
         ∧ Tx.rows (account_job_summary_table h')
           = [ [Str "a"; Int 2; Int 1; Int 1] ]).
Proof.
  eexists. split; [vm_compute; reflexivity|].
  split; [|vm_compute; reflexivity].
  match goal with
  | |- Tx.columns (account_job_summary_table ?x) = _ =>
      destruct (on_mount_headers_and_rows None None None None
                  (Some TWO_STATE_JOB) None "now" fresh_home x)
        as (H & _)
  end; [vm_compute; reflexivity|].
  exact H.
Defined.
